(** * RN PowerPoint Generator: credential gate and deck assembler

    A shallow embedding of [ppt_genie_streamlit.py].  Two parts of the
    script carry behaviour worth stating: the credential gate
    ([load_users_from_sheet], the sign-in form of [show_login], the logout
    button of [show_logout_button]) and the deck assembler
    ([generate_ppt_from_images]).

    Around them the file embeds what they are used through: the gate as a
    whole ([show_login], [check_authentication]), the generation section
    of the page, and the helpers of the profile image
    ([convert_google_drive_url], [get_user_gradient], the initials of
    [display_profile_image]).

    Python values are modelled as the script uses them: a [str] is a
    sequence of code points, a [dict] is an insertion-ordered association
    list with unique keys, [st.session_state] is a finite map from
    attribute names to values, exceptions are results of an error monad,
    and the temporary files and the log of the assembler are explicit
    state. *)

From Stdlib Require Import QArith.
From stdpp Require Import gmap strings list fin_maps numbers pretty.

Local Open Scope Z_scope.
Local Open Scope string_scope.
Local Open Scope list_scope.
Local Open Scope stdpp_scope.

(** ** Python strings *)

(** A Python [str] is a sequence of Unicode code points. *)
Definition pystr : Type := list N.

(** An ASCII literal of the script, as a [str]. *)
Definition py (s : string) : pystr :=
  Ascii.N_of_ascii <$> String.list_ascii_of_string s.

(** [c.isspace()] as [str.strip()] uses it: the ASCII table of CPython
    below 128, the Unicode white-space property above. *)
Definition isspace (c : N) : bool :=
  ((9 <=? c) && (c <=? 13) || (28 <=? c) && (c <=? 32)
   || (c =? 133) || (c =? 160) || (c =? 5760)
   || (8192 <=? c) && (c <=? 8202)
   || (c =? 8232) || (c =? 8233) || (c =? 8239) || (c =? 8287)
   || (c =? 12288))%N.

Fixpoint lstrip (s : pystr) : pystr :=
  match s with
  | [] => []
  | c :: s' => if isspace c then lstrip s' else s
  end.

Definition rstrip (s : pystr) : pystr := rev (lstrip (rev s)).

(** [s.strip()] *)
Definition strip (s : pystr) : pystr := rstrip (lstrip s).

(** Truth value of a [str] in a condition: non-empty. *)
Definition truthy (s : pystr) : bool :=
  match s with [] => false | _ :: _ => true end.

(** [name.split('.')[-1]]: what follows the last dot, the whole name when it
    has none.  46 is the code point of the dot. *)
Fixpoint split_dot_last_aux (acc s : pystr) : pystr :=
  match s with
  | [] => rev acc
  | c :: s' => if (c =? 46)%N then split_dot_last_aux [] s'
               else split_dot_last_aux (c :: acc) s'
  end.

Definition split_dot_last (s : pystr) : pystr := split_dot_last_aux [] s.

(** ** Python dicts: insertion order, unique keys *)

Module PyDict.
Section dict.
Context {K V : Type} `{EqDecision K}.

(** [d.get(k)] *)
Fixpoint get (k : K) (d : list (K * V)) : option V :=
  match d with
  | [] => None
  | (k', v) :: d' => if decide (k = k') then Some v else get k d'
  end.

(** [d[k] = v]: an existing key keeps its place and takes the new value,
    a new key goes last. *)
Fixpoint set (k : K) (v : V) (d : list (K * V)) : list (K * V) :=
  match d with
  | [] => [(k, v)]
  | (k', v') :: d' =>
      if decide (k = k') then (k, v) :: d' else (k', v') :: set k v d'
  end.

(** [list(d.keys())] *)
Definition keys (d : list (K * V)) : list K := d.*1.

(** [k in d] *)
Definition mem (k : K) (d : list (K * V)) : bool :=
  match get k d with Some _ => true | None => false end.
End dict.
End PyDict.

(** ** Exceptions *)

(** The exception classes the script meets.  [Exception] stands for any
    subclass of [Exception] not listed, [BaseException] for one that is not
    derived from [Exception] ([KeyboardInterrupt], [SystemExit]). *)
Inductive exn_class :=
  | RefreshError | SpreadsheetNotFound | AttributeError | IndexError | TypeError
  | FileNotFoundError | UnidentifiedImageError | Exception | BaseException.

Record exn := Exn { exn_cls : exn_class; exn_str : pystr }.

(** What [except Exception] catches. *)
Definition is_Exception (e : exn) : bool :=
  match exn_cls e with BaseException => false | _ => true end.

Inductive result (A : Type) :=
  | Return (a : A)
  | Raise (e : exn).
Arguments Return {A} a.
Arguments Raise {A} e.

#[global] Instance result_ret : MRet result := λ A a, Return a.
#[global] Instance result_bind : MBind result := λ A B f m,
  match m with Return a => f a | Raise e => Raise e end.

(** What the script shows to the user. *)
Inductive ui_msg :=
  | st_error (text : pystr)
  | st_success (text : pystr).

(** ** The user directory: [load_users_from_sheet] *)

(** A cell of [sheet.get_all_records()]: text, or a number where the cell
    looks like one. *)
Inductive cell :=
  | CStr (s : pystr)
  | CInt (z : Z)
  | CFloat (q : Q).

(** A row: a dict from column header to cell. *)
Definition sheet_record : Type := list (pystr * cell).

Record user_record := UserRecord {
  email : pystr;
  password : pystr;
  image_url : pystr;
}.

Definition users_dict : Type := list (pystr * user_record).

(** [record.get(key, '')] *)
Definition record_get (key : string) (record : sheet_record) : cell :=
  default (CStr []) (PyDict.get (py key) record).

(** [value.strip()] on a cell: only a [str] has the method. *)
Definition cell_strip (c : cell) : result pystr :=
  match c with
  | CStr s => Return (strip s)
  | CInt _ =>
      Raise (Exn AttributeError (py "'int' object has no attribute 'strip'"))
  | CFloat _ =>
      Raise (Exn AttributeError (py "'float' object has no attribute 'strip'"))
  end.

(** The body of the loop over the records. *)
Definition add_record (users : users_dict) (record : sheet_record)
  : result users_dict :=
  name ← cell_strip (record_get "Name" record);
  email ← cell_strip (record_get "Email" record);
  password ← cell_strip (record_get "Password" record);
  image_url ← cell_strip (record_get "Image_URL" record);
  if truthy name && truthy email && truthy password
  then Return (PyDict.set name (UserRecord email password image_url) users)
  else Return users.

Fixpoint records_loop (users : users_dict) (records : list sheet_record)
  : result users_dict :=
  match records with
  | [] => Return users
  | record :: rest => users' ← add_record users record; records_loop users' rest
  end.

(** The function.  Its argument is what the remote calls of the [try] block
    (credentials, [gspread.authorize], [gc.open], [get_all_records]) come
    back with: the records, or the exception one of them raised.  It gives
    what the function returns or raises and the messages it shows. *)
Definition load_users_from_sheet (fetched : result (list sheet_record))
  : result users_dict * list ui_msg :=
  match records ← fetched; records_loop [] records with
  | Return users => (Return users, [])
  | Raise e =>
      match exn_cls e with
      | RefreshError =>
          (Return [], [st_error (py
             "Authentication failed. Please check your Google Service Account credentials.")])
      | SpreadsheetNotFound =>
          (Return [], [st_error (py
             "User database not found. Please check the Google Sheet name.")])
      | BaseException => (Raise e, [])
      | _ => (Return [], [st_error (py "Error loading user data: " ++ exn_str e)])
      end
  end.

(** ** The session: [st.session_state] *)

(** The values the script keeps in the session. *)
Inductive pyval :=
  | VNone
  | VBool (b : bool)
  | VStr (s : pystr)
  | VList (items : list pystr).

#[global] Instance pyval_eq_dec : EqDecision pyval.
Proof. solve_decision. Defined.

Abbreviation session_state := (gmap string pyval).

(** The start of [check_authentication]: a session that has no
    [authenticated] attribute yet gets the unauthenticated default. *)
Definition check_authentication_init (ss : session_state) : session_state :=
  match ss !! "authenticated" with
  | Some _ => ss
  | None => <["selected_user" := VNone]> (<["authenticated" := VBool false]> ss)
  end.

(** The four attributes that say who is signed in. *)
Definition auth_fields (ss : session_state)
  : option pyval * option pyval * option pyval * option pyval :=
  (ss !! "authenticated", ss !! "current_user",
   ss !! "user_email", ss !! "user_image").

(** The assignments of the accepting branch of the sign-in form. *)
Definition sign_in (current_user : pystr) (u : user_record)
    (ss : session_state) : session_state :=
  <["user_image" := VStr (image_url u)]>
    (<["user_email" := VStr (email u)]>
      (<["current_user" := VStr current_user]>
        (<["authenticated" := VBool true]> ss))).

(** [if login_button:] of [show_login], for the directory [users] and the
    text of the password field.  The selected name is the session's
    [selected_user], the first key of the directory when the session has
    none.  The result is [true] when the accepting branch ran (it ends in
    [st.rerun()]), [false] when the rejecting one did. *)
Definition show_login_submit (users : users_dict) (password_text : pystr)
    (ss : session_state) : result bool * session_state * list ui_msg :=
  match PyDict.keys users with
  | [] => (Raise (Exn IndexError (py "list index out of range")), ss, [])
  | first_key :: _ =>
      let rejected :=
        (Return false, ss,
         [st_error (10060%N :: py " Invalid credentials. Please try again.")]) in
      match default (VStr first_key) (ss !! "selected_user") with
      | VStr current_user =>
          match PyDict.get current_user users with
          | Some u =>
              if bool_decide (password_text = password u)
              then (Return true, sign_in current_user u ss,
                    [st_success (127881%N :: py " Welcome back, "
                                   ++ current_user ++ py "!")])
              else rejected
          | None => rejected
          end
      | VList _ =>
          (Raise (Exn TypeError (py "unhashable type: 'list'")), ss, [])
      | VNone | VBool _ => rejected
      end
  end.

(** [del st.session_state.attr] guarded by [if 'attr' in st.session_state]. *)
Definition del_if_present (attr : string) (ss : session_state) : session_state :=
  match ss !! attr with
  | Some _ => delete attr ss
  | None => ss
  end.

(** The logout button of [show_logout_button], pressed. *)
Definition logout (ss : session_state) : session_state :=
  del_if_present "user_image"
    (del_if_present "user_email"
      (del_if_present "current_user"
        (<["authenticated" := VBool false]> ss))).

(** [show_logout_button]: its effect on the session, and whether it ends in
    [st.rerun()]. *)
Definition show_logout_button (button : bool) (ss : session_state)
  : session_state * bool :=
  if button then (logout ss, true) else (ss, false).

(** ** The deck assembler: [generate_ppt_from_images] *)

#[global] Instance byte_eq_dec : EqDecision Byte.byte := Byte.byte_eq_dec.

(** [Inches(x)]: [int(x * 914400)], a length in English Metric Units.  The
    two floats of the script are read as the decimals they are written as;
    at both, the float product is the integer the decimal gives. *)
Definition Inches (inches : Q) : Z :=
  Z.quot (Qnum inches * 914400) (Zpos (Qden inches)).

(** Default 16:9 slide size. *)
Definition get_default_slide_size : Q * Q := (1333 # 100, 15 # 2)%Q.

(** A picture shape: the image it shows, its offset and its size. *)
Record picture := Picture {
  image_blob : list Byte.byte;
  left : Z;
  top : Z;
  width : Z;
  height : Z;
}.

(** A shape of a slide: a picture, or a placeholder taken over from the
    slide layout. *)
Inductive shape :=
  | Pic (p : picture)
  | Placeholder (idx : nat).

#[global] Instance picture_eq_dec : EqDecision picture.
Proof. solve_decision. Defined.
#[global] Instance shape_eq_dec : EqDecision shape.
Proof. solve_decision. Defined.

(** A slide is the sequence of its shapes. *)
Definition slide : Type := list shape.

Record Presentation := MkPresentation {
  slide_width : Z;
  slide_height : Z;
  slides : list slide;
}.

(** [Presentation()]: the default template, 4:3 and without slides. *)
Definition new_Presentation : Presentation :=
  MkPresentation 9144000 6858000 [].

(** An uploaded file: its name and [getvalue()]. *)
Record UploadedFile := MkUploadedFile {
  name : pystr;
  getvalue : list Byte.byte;
}.

Inductive log_level := WARNING | ERROR.

(** What the assembler works on: the presentation under construction, the
    temporary files on disk (by path; each with its suffix and content) and
    the log. *)
Record state := MkState {
  prs : Presentation;
  tmp_files : gmap nat (pystr * list Byte.byte);
  log : list (log_level * pystr);
}.

(** A statement: it runs on a state, returns or raises, and leaves a
    state. *)
Definition stmt (A : Type) : Type := state → result A * state.

#[global] Instance stmt_ret : MRet stmt := λ A a s, (Return a, s).
#[global] Instance stmt_bind : MBind stmt := λ A B f m s,
  match m s with
  | (Return a, s') => f a s'
  | (Raise e, s') => (Raise e, s')
  end.

(** [try: body  except Exception as e: handler(e)] *)
Definition try_except {A} (body : stmt A) (handler : exn → stmt A) : stmt A :=
  λ s, match body s with
       | (Return a, s') => (Return a, s')
       | (Raise e, s') => if is_Exception e then handler e s' else (Raise e, s')
       end.

Definition raise {A} (e : exn) : stmt A := λ s, (Raise e, s).

Definition set_prs (p : Presentation) (s : state) : state :=
  MkState p (tmp_files s) (log s).
Definition set_tmp_files (fs : gmap nat (pystr * list Byte.byte)) (s : state)
  : state :=
  MkState (prs s) fs (log s).

(** [logger.error(text)] *)
Definition logger_error (text : pystr) : stmt unit :=
  λ s, (Return (), MkState (prs s) (tmp_files s) (log s ++ [(ERROR, text)])).

(** [os.unlink(path)] *)
Definition os_unlink (path : nat) : stmt unit :=
  λ s, match tmp_files s !! path with
       | Some _ => (Return (), set_tmp_files (delete path (tmp_files s)) s)
       | None =>
           (Raise (Exn FileNotFoundError (py "No such file or directory")), s)
       end.

(** [sp_tree.remove(element)] *)
Fixpoint remove_shape (x : shape) (shapes : list shape) : list shape :=
  match shapes with
  | [] => []
  | y :: shapes' => if decide (x = y) then shapes' else y :: remove_shape x shapes'
  end.

(** [for shape in list(slide.shapes): slide.shapes._spTree.remove(shape._element)] *)
Definition remove_default_shapes (sl : slide) : slide :=
  foldl (λ shapes x, remove_shape x shapes) sl sl.

Section assembler.
(** The two libraries and the operating system, as far as the assembler
    sees them. *)

(** The placeholders that [add_slide] takes over from the blank layout. *)
Variable blank_layout : list nat.

(** [add_picture] on the bytes of a file: the native size of the image, in
    the presentation's units, or nothing when it raises (the image library
    does not identify an image in the bytes, or the presentation library
    does not take its format). *)
Variable native_size : list Byte.byte → option (Z * Z).

(** [str(e)] of the exception that [add_picture] raises, in the turn [i] of
    the loop, on bytes that it makes no picture of.  The text names the
    stream that was read, so it differs from turn to turn and from call to
    call. *)
Variable image_error : nat → list Byte.byte → pystr.

(** The operating system, asked in the turn [i] of the loop for a temporary
    file with the given suffix: nothing when it creates the file, [str(e)]
    of the exception when it does not.  A suffix that holds a slash names a
    directory that is not there, and the text holds the random name that
    was tried. *)
Variable tmp_error : nat → pystr → option pystr.

(** [with tempfile.NamedTemporaryFile(delete=False, suffix=suffix) as f:
    f.write(data)], returning [f.name].  When the file is created it is a
    file under a path that no file has yet, and it stays on disk when the
    block is left; when it is not, the statement raises and no file is
    there. *)
Definition NamedTemporaryFile_write (i : nat) (suffix : pystr)
    (data : list Byte.byte) : stmt nat :=
  λ s, match tmp_error i suffix with
       | Some text => (Raise (Exn Exception text), s)
       | None =>
           let path := fresh (dom (tmp_files s)) in
           (Return path,
            set_tmp_files (<[path := (suffix, data)]> (tmp_files s)) s)
       end.

(** [prs.slides.add_slide(prs.slide_layouts[6])]: a new last slide; the
    result is its position. *)
Definition add_slide : stmt nat :=
  λ s, let p := prs s in
       (Return (length (slides p)),
        set_prs (MkPresentation (slide_width p) (slide_height p)
                   (slides p ++ [Placeholder <$> blank_layout])) s).

(** The slide at position [i], replaced by [f] of it. *)
Definition update_slide (i : nat) (f : slide → slide) : stmt unit :=
  λ s, let p := prs s in
       (Return (),
        set_prs (MkPresentation (slide_width p) (slide_height p)
                   (alter f i (slides p))) s).

(** [slide.shapes.add_picture(path, left, top)] when [size] is [None],
    [slide.shapes.add_picture(path, left, top, width=w, height=h)] when
    it is [Some (w, h)], on the slide at position [slide] in the turn [i]
    of the loop.  The file is read and identified first; the picture takes
    the given size, the native size of the image without one.  (The loop
    opens only a file that it has just written, so the first branch is for
    other callers.) *)
Definition add_picture (i : nat) (slide : nat) (path : nat) (left top : Z)
    (size : option (Z * Z)) : stmt unit :=
  λ s, match tmp_files s !! path with
       | None =>
           (Raise (Exn FileNotFoundError (py "No such file or directory")), s)
       | Some (_, blob) =>
           match native_size blob with
           | None => (Raise (Exn Exception (image_error i blob)), s)
           | Some native =>
               let '(w, h) := default native size in
               update_slide slide
                 (λ sl, sl ++ [Pic (Picture blob left top w h)]) s
           end
       end.

(** The [try] block of the loop body, in the turn [i]. *)
Definition process_image (auto_resize : bool) (i : nat)
    (uploaded_file : UploadedFile) : stmt unit :=
  tmp_file_path ←
    NamedTemporaryFile_write i (py "." ++ split_dot_last (name uploaded_file))
                             (getvalue uploaded_file);
  slide ← add_slide;
  update_slide slide remove_default_shapes;;
  (if auto_resize
   then λ s, add_picture i slide tmp_file_path 0 0
               (Some (slide_width (prs s), slide_height (prs s))) s
   else add_picture i slide tmp_file_path 0 0 None);;
  os_unlink tmp_file_path.

(** [for i, uploaded_file in enumerate(image_files):] with its
    [try]/[except], from the turn [i] on. *)
Fixpoint process_images (auto_resize : bool) (i : nat)
    (image_files : list UploadedFile) : stmt unit :=
  match image_files with
  | [] => mret ()
  | uploaded_file :: rest =>
      try_except (process_image auto_resize i uploaded_file)
        (λ e, logger_error (py "Error processing image " ++ name uploaded_file
                              ++ py ": " ++ exn_str e));;
      process_images auto_resize (S i) rest
  end.

(** [prs.slide_width = w; prs.slide_height = h] *)
Definition set_slide_size (w h : Z) : stmt unit :=
  λ s, (Return (), set_prs (MkPresentation w h (slides (prs s))) s).

(** [prs.save(ppt_buffer)]: the buffer holds the presentation as it is
    now; the model returns that presentation. *)
Definition save : stmt Presentation := λ s, (Return (prs s), s).

(** The outer [try] block, from the sizing of the new presentation on. *)
Definition assemble (image_files : list UploadedFile) (auto_resize : bool)
  : stmt Presentation :=
  let '(width_inches, height_inches) := get_default_slide_size in
  set_slide_size (Inches width_inches) (Inches height_inches);;
  process_images auto_resize 0 image_files;;
  save.

(** The function, on the temporary files and the log it finds: what it
    returns or raises, and the temporary files and the log it leaves. *)
Definition generate_ppt_from_images (image_files : list UploadedFile)
    (auto_resize : bool) (files : gmap nat (pystr * list Byte.byte))
    (lg : list (log_level * pystr))
  : result Presentation
    * gmap nat (pystr * list Byte.byte) * list (log_level * pystr) :=
  let outcome :=
    try_except (assemble image_files auto_resize)
      (λ e, logger_error (py "Error generating presentation: " ++ exn_str e);;
            raise e)
      (MkState new_Presentation files lg) in
  (outcome.1, tmp_files outcome.2, log outcome.2).
End assembler.

(** ** The gate as a whole: [show_login] and [check_authentication] *)

(** Truth value of a session value in a condition. *)
Definition py_truthy (v : pyval) : bool :=
  match v with
  | VNone => false
  | VBool b => b
  | VStr s => truthy s
  | VList items => match items with [] => false | _ :: _ => true end
  end.

(** [st.session_state.get('authenticated', False)] as a condition. *)
Definition is_authenticated (ss : session_state) : bool :=
  match ss !! "authenticated" with
  | Some v => py_truthy v
  | None => false
  end.

(** [v in users] for a session value: a [str] is looked up, [None] and the
    booleans are hashable and no key, a list is not hashable. *)
Definition in_users (v : pyval) (users : users_dict) : result bool :=
  match v with
  | VStr n => Return (PyDict.mem n users)
  | VNone | VBool _ => Return false
  | VList _ => Raise (Exn TypeError (py "unhashable type: 'list'"))
  end.

(** What the widgets of the sign-in screen give in one run of the script:
    the name picked in the dropdown (nothing while it is untouched), the
    text of the password field, and whether the form was submitted. *)
Record login_widgets := LoginWidgets {
  user_dropdown : option pystr;
  password_input : pystr;
  login_button : bool;
}.

(** How a run of a function of the script ends: it returns, it ends the run
    with [st.rerun()], or an exception leaves it. *)
Inductive script_end :=
  | Returned (b : bool)
  | Rerun
  | Escaped (e : exn).

(** The panels of [show_login] below the selection of the user: the
    dropdown and the password form, for the selected name
    [selected_user]. *)
Definition show_login_panels (users : users_dict) (w : login_widgets)
    (selected_user : pystr) (ss : session_state) (msgs : list ui_msg)
  : script_end * session_state * list ui_msg :=
  (* the dropdown: the name picked when it is an option, the option at
     [current_index] otherwise *)
  let new_selection :=
    match user_dropdown w with
    | Some picked => if PyDict.mem picked users then picked else selected_user
    | None => selected_user
    end in
  if bool_decide (Some (VStr new_selection) ≠ ss !! "selected_user")
  then (Rerun, <["selected_user" := VStr new_selection]> ss, msgs)
  else if login_button w then
    match show_login_submit users (password_input w) ss with
    | (Return true, ss', shown) => (Rerun, ss', msgs ++ shown)
    | (Return false, ss', shown) => (Returned false, ss', msgs ++ shown)
    | (Raise e, ss', shown) => (Escaped e, ss', msgs ++ shown)
    end
  else (Returned false, ss, msgs).

(** [show_login], on what the fetch of the directory comes back with.  Of
    what it shows only the messages of [st.error] and [st.success] are
    kept. *)
Definition show_login (fetched : result (list sheet_record))
    (w : login_widgets) (ss : session_state)
  : script_end * session_state * list ui_msg :=
  match load_users_from_sheet fetched with
  | (Raise e, msgs) => (Escaped e, ss, msgs)
  | (Return users, msgs) =>
      match PyDict.keys users with
      | [] =>
          (Returned false, ss,
           msgs ++ [st_error (py "Unable to load user data. Please contact support.")])
      | first_key :: _ =>
          (* Initialize selected user *)
          let ss :=
            match ss !! "selected_user" with
            | None | Some VNone => <["selected_user" := VStr first_key]> ss
            | Some _ => ss
            end in
          let selected := default VNone (ss !! "selected_user") in
          (* Safety check *)
          match in_users selected users with
          | Raise e => (Escaped e, ss, msgs)
          | Return true =>
              match selected with
              | VStr n => show_login_panels users w n ss msgs
              | _ => show_login_panels users w first_key ss msgs
              end
          | Return false =>
              show_login_panels users w first_key
                (<["selected_user" := VStr first_key]> ss) msgs
          end
      end
  end.

(** [check_authentication] *)
Definition check_authentication (fetched : result (list sheet_record))
    (w : login_widgets) (ss : session_state)
  : script_end * session_state * list ui_msg :=
  let ss := check_authentication_init ss in
  if is_authenticated ss then (Returned true, ss, [])
  else
    match show_login fetched w ss with
    | (Escaped e, ss', msgs) =>
        if is_Exception e
        then (Returned false, ss',
              msgs ++ [st_error (py "Authentication error: " ++ exn_str e)])
        else (Escaped e, ss', msgs)
    | ended => ended
    end.

(** ** The generation section of the page *)

(** What the section puts on the page. *)
Inductive page_element :=
  | page_error (text : pystr)
  | page_success_banner
  | page_download (data : Presentation) (file_name mime : pystr)
  | page_info (text : pystr)
  | page_error_banner (text : pystr).

(** [str(n)] for a length. *)
Definition str_of_nat (n : nat) : pystr := py (pretty n).

(** The section under "Generate PowerPoint", when the button is pressed:
    [timestamp] is [datetime.now().strftime("%Y%m%d_%H%M%S")].  It gives
    what the section shows, or the exception that leaves it, and the
    temporary files and the log it leaves. *)
Definition generate_section (blank_layout : list nat)
    (native_size : list Byte.byte → option (Z * Z))
    (image_error : nat → list Byte.byte → pystr)
    (tmp_error : nat → pystr → option pystr)
    (uploaded_files : list UploadedFile) (auto_resize : bool)
    (timestamp : pystr) (files : gmap nat (pystr * list Byte.byte))
    (lg : list (log_level * pystr))
  : result (list page_element)
    * gmap nat (pystr * list Byte.byte) * list (log_level * pystr) :=
  match uploaded_files with
  | [] => (Return [page_error (py "Please upload at least one image file.")],
           files, lg)
  | _ :: _ =>
      match generate_ppt_from_images blank_layout native_size image_error
              tmp_error uploaded_files auto_resize files lg with
      | (Return ppt_buffer, files', lg') =>
          (Return
             [page_success_banner;
              page_download ppt_buffer
                (py "presentation_" ++ timestamp ++ py ".pptx")
                (py "application/vnd.openxmlformats-officedocument.presentationml.presentation");
              page_info (py "Created presentation with "
                           ++ str_of_nat (length uploaded_files)
                           ++ py " slides")],
           files', lg')
      | (Raise e, files', lg') =>
          if is_Exception e
          then (Return [page_error_banner
                          (py "Error generating presentation: " ++ exn_str e)],
                files', lg')
          else (Raise e, files', lg')
      end
  end.

(** ** Profile images: [convert_google_drive_url] *)

(** [s.startswith(p)] *)
Fixpoint starts_with (p s : pystr) : bool :=
  match p, s with
  | [], _ => true
  | _ :: _, [] => false
  | a :: p', b :: s' => (a =? b)%N && starts_with p' s'
  end.

(** [sep in s] *)
Fixpoint contains (sep s : pystr) : bool :=
  starts_with sep s
  || match s with [] => false | _ :: s' => contains sep s' end.

(** The first occurrence of [sep] in [s]: what is before it and what is
    after it, as [s.partition(sep)] finds them. *)
Fixpoint partition (sep s : pystr) : option (pystr * pystr) :=
  if starts_with sep s then Some ([], drop (length sep) s)
  else match s with
       | [] => None
       | c :: s' =>
           match partition sep s' with
           | Some (before, after) => Some (c :: before, after)
           | None => None
           end
       end.

(** [s.split(sep)] for a separator that is not empty, which is what the
    script passes: cut at the first occurrence and go on behind it.  An
    occurrence takes at least one character, so [length s] cuts are all
    there can be. *)
Fixpoint split_upto (cuts : nat) (sep s : pystr) : list pystr :=
  match cuts with
  | O => [s]
  | S cuts' =>
      match partition sep s with
      | None => [s]
      | Some (before, after) => before :: split_upto cuts' sep after
      end
  end.

Definition split (sep s : pystr) : list pystr := split_upto (length s) sep s.

(** [parts[i]] *)
Definition index {A} (parts : list A) (i : nat) : result A :=
  match parts !! i with
  | Some x => Return x
  | None => Raise (Exn IndexError (py "list index out of range"))
  end.

Definition drive_direct_prefix : pystr :=
  py "https://drive.google.com/uc?export=view&id=".

(** Convert Google Drive sharing URL to direct image URL. *)
Definition convert_google_drive_url (drive_url : pystr) : pystr :=
  if negb (truthy drive_url) || negb (contains (py "drive.google.com") drive_url)
  then drive_url
  else
    let attempt : result (option pystr) :=
      if contains (py "/file/d/") drive_url then
        tail ← index (split (py "/file/d/") drive_url) 1;
        file_id ← index (split (py "/") tail) 0;
        Return (Some (drive_direct_prefix ++ file_id))
      else if contains (py "id=") drive_url then
        tail ← index (split (py "id=") drive_url) 1;
        file_id ← index (split (py "&") tail) 0;
        Return (Some (drive_direct_prefix ++ file_id))
      else Return None in
    match attempt with
    | Return (Some direct) => direct
    | Return None => drive_url
    | Raise _ => drive_url
    end.

(** ** Avatars: [get_user_gradient] and the initials of [display_profile_image] *)

Definition gradients : list pystr :=
  [py "#667eea, #764ba2"; py "#f093fb, #f5576c"; py "#4facfe, #00f2fe";
   py "#43e97b, #38f9d7"; py "#fa709a, #fee140"; py "#a8edea, #fed6e3";
   py "#ffecd2, #fcb69f"; py "#ff9a9e, #fecfef"].

(** [items[i]] for an integer [i]: a negative index counts from the end. *)
Definition index_int {A} (items : list A) (i : Z) : result A :=
  let n := Z.of_nat (length items) in
  let position := if bool_decide (i < 0) then i + n else i in
  if bool_decide (0 ≤ position < n)
  then index items (Z.to_nat position)
  else Raise (Exn IndexError (py "list index out of range")).

(** [s.split()]: the words between runs of white space.  [word] is the
    word that is being read, last character first. *)
Fixpoint split_whitespace_from (word s : pystr) : list pystr :=
  match s with
  | [] => match word with [] => [] | _ :: _ => [rev word] end
  | c :: s' =>
      if isspace c then
        match word with
        | [] => split_whitespace_from [] s'
        | _ :: _ => rev word :: split_whitespace_from [] s'
        end
      else split_whitespace_from (c :: word) s'
  end.

Definition split_whitespace (s : pystr) : list pystr :=
  split_whitespace_from [] s.

Section avatar.
(** Of Python itself: [hash] of a [str], which differs from one process to
    the next, [str.lower], and [str.upper] on a string of one character. *)
Variable hash : pystr → Z.
Variable lower : pystr → pystr.
Variable upper : N → pystr.

(** Get a consistent gradient for a user based on their name. *)
Definition get_user_gradient (user_name : pystr) : result pystr :=
  let name_hash := hash (lower user_name) `mod` Z.of_nat (length gradients) in
  index_int gradients name_hash.

(** [[name[0].upper() for name in names]] *)
Fixpoint first_letters (names : list pystr) : result (list pystr) :=
  match names with
  | [] => Return []
  | name :: rest =>
      c ← index name 0;
      letters ← first_letters rest;
      Return (upper c :: letters)
  end.

(** [''.join([name[0].upper() for name in user_name.split()[:2]])] *)
Definition initials (user_name : pystr) : result pystr :=
  letters ← first_letters (take 2 (split_whitespace user_name));
  Return (concat letters).
End avatar.

(** ** Data of the examples *)

(** A row of the sheet with its four columns as text. *)
Definition sheet_row (n e p i : string) : sheet_record :=
  [(py "Name", CStr (py n)); (py "Email", CStr (py e));
   (py "Password", CStr (py p)); (py "Image_URL", CStr (py i))].



(** The directory of the scenario of the specification. *)
Definition alice_directory : users_dict :=
  [(py "Alice", UserRecord (py "alice@rn.example") (py "abc123") [])].

(** A session at the sign-in form with [n] selected. *)
Definition session_selecting (n : string) : session_state :=
  <["selected_user" := VStr (py n)]> (<["authenticated" := VBool false]> ∅).

(** A stand-in for the image library in the examples: it identifies a file
    by the first byte of a PNG signature and reads the next two bytes as
    the width and the height in pixels, at 96 pixels an inch. *)
Definition example_native_size (blob : list Byte.byte) : option (Z * Z) :=
  match blob with
  | Byte.x89 :: w :: h :: _ =>
      Some (Z.of_N (Byte.to_N w) * 9525, Z.of_N (Byte.to_N h) * 9525)
  | _ => None
  end.

(** A stand-in for the text of its exception: the stream is named by an
    address. *)
Definition example_image_error (i : nat) (blob : list Byte.byte) : pystr :=
  py "cannot identify image file <_io.BytesIO object at 0x7f2c1d4b3e50>".

(** A stand-in for the operating system in the examples: it creates every
    temporary file but one whose suffix holds a slash. *)
Definition example_tmp_error (i : nat) (suffix : pystr) : option pystr :=
  if contains (py "/") suffix
  then Some (py "[Errno 2] No such file or directory: '/tmp/tmpq3x7_k2d"
               ++ suffix ++ py "'")
  else None.

Definition valid_png : UploadedFile :=
  MkUploadedFile (py "valid.png") [Byte.x89; Byte.x04; Byte.x03].
Definition corrupt_jpg : UploadedFile :=
  MkUploadedFile (py "corrupt.jpg") [Byte.xff; Byte.x00].
Definition valid2_png : UploadedFile :=
  MkUploadedFile (py "valid2.png") [Byte.x89; Byte.x02; Byte.x02].

(** An image under a name with a slash after its last dot. *)
Definition slashed_png : UploadedFile :=
  MkUploadedFile (py "photo.a/b") [Byte.x89; Byte.x04; Byte.x03].

(** The sheet behind [alice_directory], and the widgets of a visitor who
    leaves the dropdown alone, types [pw] and submits. *)
Definition alice_sheet : list sheet_record :=
  [sheet_row "Alice" "alice@rn.example" "abc123" ""].


Definition submitting (pw : string) : login_widgets :=
  LoginWidgets None (py pw) true.

(** A sharing link and a link with the file in the query. *)
Definition sharing_link : pystr :=
  py "https://drive.google.com/file/d/1AbC_dEf/view?usp=sharing".

Definition open_link : pystr :=
  py "https://drive.google.com/open?id=1AbC_dEf&authuser=0".

(** ** Predicates of the statements *)


(** The row [record] is complete and stands for the user [n] with the
    record [u]: its four cells are text (a missing one counts as empty),
    [n] and the fields of [u] are the cells stripped, and name, email and
    password are not empty. *)
Definition row_gives (record : sheet_record) (n : pystr) (u : user_record)
  : Prop :=
  ∃ n0 e0 p0 i0,
    record_get "Name" record = CStr n0
    ∧ record_get "Email" record = CStr e0
    ∧ record_get "Password" record = CStr p0
    ∧ record_get "Image_URL" record = CStr i0
    ∧ n = strip n0
    ∧ u = UserRecord (strip e0) (strip p0) (strip i0)
    ∧ n ≠ [] ∧ email u ≠ [] ∧ password u ≠ [].

(** The row [record] is left out: its cells are text and its name, email or
    password is empty once stripped. *)
Definition row_incomplete (record : sheet_record) : Prop :=
  ∃ n0 e0 p0 i0,
    record_get "Name" record = CStr n0
    ∧ record_get "Email" record = CStr e0
    ∧ record_get "Password" record = CStr p0
    ∧ record_get "Image_URL" record = CStr i0
    ∧ (strip n0 = [] ∨ strip e0 = [] ∨ strip p0 = []).

(** The slide that the assembler leaves for a [file] with a temporary file
    on a [w] by [h] canvas: one picture of the file's bytes at the origin
    when [add_picture] makes a picture of them (the image library
    identifies them), no shape at all when it fails. *)
Definition slide_for (native_size : list Byte.byte → option (Z * Z))
    (auto_resize : bool) (w h : Z) (file : UploadedFile) : slide :=
  match native_size (getvalue file) with
  | Some native =>
      [Pic (Picture (getvalue file) 0 0
              (if auto_resize then w else native.1)
              (if auto_resize then h else native.2))]
  | None => []
  end.

(** The files that [add_picture] fails on: the image library does not
    identify them. *)
Definition unidentified (native_size : list Byte.byte → option (Z * Z))
    (files : list UploadedFile) : list UploadedFile :=
  filter (λ file, native_size (getvalue file) = None) files.

(** [sl] holds a picture at the origin that is [w] wide and [h] high. *)
Definition has_picture_at_origin (w h : Z) (sl : slide) : Prop :=
  ∃ p, Pic p ∈ sl ∧ left p = 0 ∧ top p = 0 ∧ width p = w ∧ height p = h.

(** The cell is a number: it has no [strip]. *)
Definition numeric (c : cell) : Prop :=
  match c with CStr _ => False | CInt _ | CFloat _ => True end.

(** The row holds a number in one of the four columns that are stripped. *)
Definition has_numeric_cell (record : sheet_record) : Prop :=
  numeric (record_get "Name" record) ∨ numeric (record_get "Email" record)
  ∨ numeric (record_get "Password" record)
  ∨ numeric (record_get "Image_URL" record).

(** The suffix of the temporary file of [file]: a dot and what follows the
    last dot of its name. *)
Definition tmp_suffix (file : UploadedFile) : pystr :=
  py "." ++ split_dot_last (name file).

(** The temporary file that is written for [file]. *)
Definition tmp_file_of (file : UploadedFile) : pystr * list Byte.byte :=
  (tmp_suffix file, getvalue file).

(** Of the files of the turns from [i] on, those whose temporary file is
    created. *)
Fixpoint with_tmp_file (tmp_error : nat → pystr → option pystr) (i : nat)
    (files : list UploadedFile) : list UploadedFile :=
  match files with
  | [] => []
  | file :: rest =>
      match tmp_error i (tmp_suffix file) with
      | None => file :: with_tmp_file tmp_error (S i) rest
      | Some _ => with_tmp_file tmp_error (S i) rest
      end
  end.

(** Every temporary file of the list is created, in whatever turn. *)
Definition all_tmp_files (tmp_error : nat → pystr → option pystr)
    (files : list UploadedFile) : Prop :=
  ∀ i file, file ∈ files → tmp_error i (tmp_suffix file) = None.



(** The line that the loop of the assembler logs for a file whose turn
    fails with the text [text]. *)
Definition error_line (file : UploadedFile) (text : pystr)
  : log_level * pystr :=
  (ERROR, py "Error processing image " ++ name file ++ py ": " ++ text).

(** The lines that are due for the files of the turns from [i] on: one for
    a file whose temporary file is not created, one for a file that
    [add_picture] fails on, none for the others. *)
Fixpoint error_lines (native_size : list Byte.byte → option (Z * Z))
    (image_error : nat → list Byte.byte → pystr)
    (tmp_error : nat → pystr → option pystr) (i : nat)
    (files : list UploadedFile) : list (log_level * pystr) :=
  match files with
  | [] => []
  | file :: rest =>
      match tmp_error i (tmp_suffix file), native_size (getvalue file) with
      | Some text, _ => [error_line file text]
      | None, None => [error_line file (image_error i (getvalue file))]
      | None, Some _ => []
      end ++ error_lines native_size image_error tmp_error (S i) rest
  end.

(** * Properties *)

(** ** Dicts *)

Section dict_facts.
Context {K V : Type} `{EqDecision K}.
Implicit Types (k : K) (v : V) (d : list (K * V)).



Lemma keys_set k v d :
  PyDict.keys (PyDict.set k v d)
  = if PyDict.mem k d then PyDict.keys d else PyDict.keys d ++ [k].
Proof.
  unfold PyDict.mem, PyDict.keys. induction d as [|[k' v'] d IH]; [done|].
  cbn [PyDict.set PyDict.get].
  destruct (decide (k = k')) as [->|Hne]; [done|].
  rewrite !fmap_cons, IH. by destruct (PyDict.get k d).
Qed.

Lemma mem_keys k d : PyDict.mem k d = true ↔ k ∈ PyDict.keys d.
Proof.
  unfold PyDict.mem, PyDict.keys. induction d as [|[k' v'] d IH]; simpl.
  - split; [done | by intros ?%elem_of_nil].
  - destruct (decide (k = k')) as [->|Hne].
    + split; [intros _; left | done].
    + rewrite IH. split; [by right | by intros [?|?]%elem_of_cons].
Qed.

End dict_facts.

(** ** Stripping *)

Lemma truthy_nonempty (s : pystr) : truthy s = true ↔ s ≠ [].
Proof. by destruct s. Qed.









(** ** The user directory *)

Lemma add_record_inv users record users' :
  add_record users record = Return users' →
  (users' = users ∧ row_incomplete record)
  ∨ (∃ n u, row_gives record n u ∧ users' = PyDict.set n u users).
Proof.
  unfold add_record.
  destruct (record_get "Name" record) as [n0| |] eqn:Hn; simpl; try done.
  destruct (record_get "Email" record) as [e0| |] eqn:He; simpl; try done.
  destruct (record_get "Password" record) as [p0| |] eqn:Hp; simpl; try done.
  destruct (record_get "Image_URL" record) as [i0| |] eqn:Hi; simpl; try done.
  destruct (truthy (strip n0)) eqn:Tn; simpl.
  2:{ intros [= <-]. left. split; [done|]. exists n0, e0, p0, i0.
      split_and!; try done. left. by destruct (strip n0). }
  destruct (truthy (strip e0)) eqn:Te; simpl.
  2:{ intros [= <-]. left. split; [done|]. exists n0, e0, p0, i0.
      split_and!; try done. right; left. by destruct (strip e0). }
  destruct (truthy (strip p0)) eqn:Tp; simpl.
  2:{ intros [= <-]. left. split; [done|]. exists n0, e0, p0, i0.
      split_and!; try done. right; right. by destruct (strip p0). }
  intros [= <-]. right. eexists _, _. split; [|done].
  exists n0, e0, p0, i0. split_and!; try done; by apply truthy_nonempty.
Qed.

Lemma add_record_complete users record n u :
  row_gives record n u →
  add_record users record = Return (PyDict.set n u users).
Proof.
  intros (n0 & e0 & p0 & i0 & Hn & He & Hp & Hi & -> & -> & Tn & Te & Tp).
  simpl in Te, Tp. unfold add_record. rewrite Hn, He, Hp, Hi. simpl.
  apply truthy_nonempty in Tn, Te, Tp. by rewrite Tn, Te, Tp.
Qed.

Lemma add_record_incomplete users record :
  row_incomplete record → add_record users record = Return users.
Proof.
  intros (n0 & e0 & p0 & i0 & Hn & He & Hp & Hi & Hempty).
  unfold add_record. rewrite Hn, He, Hp, Hi. simpl.
  destruct Hempty as [-> | [-> | ->]]; simpl; [done | |].
  - by rewrite andb_false_r.
  - by rewrite andb_false_r.
Qed.






(** What the function gives on records that it gets. *)
Lemma load_users_from_sheet_fetched records users :
  load_users_from_sheet (Return records) = (Return users, [])
  ↔ records_loop [] records = Return users.
Proof.
  unfold load_users_from_sheet. simpl.
  destruct (records_loop [] records) as [users1|e]; simpl.
  - split; [by intros [= ->] | by intros [= ->]].
  - split; [|done]. by destruct (exn_cls e).
Qed.








(** The handlers of the function, on an exception of the fetch. *)
Lemma load_users_from_sheet_raised (e : exn) :
  load_users_from_sheet (Raise e)
  = match exn_cls e with
    | RefreshError =>
        (Return [], [st_error (py
           "Authentication failed. Please check your Google Service Account credentials.")])
    | SpreadsheetNotFound =>
        (Return [], [st_error (py
           "User database not found. Please check the Google Sheet name.")])
    | BaseException => (Raise e, [])
    | _ => (Return [], [st_error (py "Error loading user data: " ++ exn_str e)])
    end.
Proof. reflexivity. Qed.

(** C7.  When the fetch raises an exception (a credential refresh error, a
    missing sheet, or any other one), [load_users_from_sheet] returns the
    empty directory and shows one error message; it does not raise. *)
Theorem load_users_from_sheet_fails_soft (e : exn) :
  is_Exception e = true →
  ∃ text, load_users_from_sheet (Raise e) = (Return [], [st_error text]).
Proof.
  unfold is_Exception. rewrite load_users_from_sheet_raised.
  destruct (exn_cls e); intros He; try done; by eexists.
Qed.

(** The same holds for an exception of the loop over the records: a cell
    that is a number has no [strip]. *)
Lemma load_users_from_sheet_never_raises (fetched : result (list sheet_record)) :
  (∀ e, fetched = Raise e → is_Exception e = true) →
  ∃ users msgs, load_users_from_sheet fetched = (Return users, msgs).
Proof.
  intros Hexn. destruct fetched as [records|e].
  - unfold load_users_from_sheet. simpl.
    destruct (records_loop [] records) as [users|e] eqn:Hloop; [by eauto|].
    assert (exn_cls e = AttributeError) as ->; [|by eauto].
    clear Hexn. revert Hloop. generalize ([] : users_dict).
    induction records as [|r records IH]; intros users; simpl; [done|].
    destruct (add_record users r) as [users1|e1] eqn:Hadd; simpl; [apply IH|].
    intros [= ->]. revert Hadd. unfold add_record.
    repeat (match goal with
            | |- context [cell_strip ?c] => destruct c; simpl; try done
            end; try by intros [= <-]).
    by destruct (_ && _).
  - specialize (Hexn e eq_refl). unfold is_Exception in Hexn.
    rewrite load_users_from_sheet_raised. destruct (exn_cls e); by eauto.
Qed.


Lemma load_users_from_sheet_fails_soft_witness :
  is_Exception (Exn SpreadsheetNotFound (py "App Passwords")) = true
  ∧ ∃ text,
      load_users_from_sheet (Raise (Exn SpreadsheetNotFound (py "App Passwords")))
      = (Return [], [st_error text]).
Proof.
  split; [reflexivity|].
  apply load_users_from_sheet_fails_soft. reflexivity.
Defined.


(** A number in a column that is stripped loses the whole directory. *)
Example load_users_numeric_cell :
  load_users_from_sheet
    (Return [sheet_row "Alice" "alice@rn.example" "abc123" "";
             [(py "Name", CStr (py "Bob")); (py "Email", CStr (py "bob@rn.example"));
              (py "Password", CInt 1234)]])
  = (Return [],
     [st_error (py "Error loading user data: 'int' object has no attribute 'strip'")]).
Proof. vm_compute. reflexivity. Qed.

(** ** The session *)

Lemma keys_nil_get {V} (d : list (pystr * V)) k :
  PyDict.keys d = [] → PyDict.get k d = None.
Proof. by destruct d. Qed.

Lemma auth_fields_sign_in n u ss :
  auth_fields (sign_in n u ss)
  = (Some (VBool true), Some (VStr n), Some (VStr (email u)),
     Some (VStr (image_url u))).
Proof. unfold auth_fields, sign_in. by simplify_map_eq. Qed.

(** The sign-in form on a session whose [selected_user] is a name. *)
Lemma show_login_submit_selected users n pw ss :
  show_login_submit users pw (<["selected_user" := VStr n]> ss)
  = match PyDict.keys users with
    | [] => (Raise (Exn IndexError (py "list index out of range")),
             <["selected_user" := VStr n]> ss, [])
    | _ :: _ =>
        match PyDict.get n users with
        | Some u =>
            if bool_decide (pw = password u)
            then (Return true, sign_in n u (<["selected_user" := VStr n]> ss),
                  [st_success (127881%N :: py " Welcome back, " ++ n ++ py "!")])
            else (Return false, <["selected_user" := VStr n]> ss,
                  [st_error (10060%N :: py " Invalid credentials. Please try again.")])
        | None =>
            (Return false, <["selected_user" := VStr n]> ss,
             [st_error (10060%N :: py " Invalid credentials. Please try again.")])
        end
    end.
Proof.
  unfold show_login_submit. rewrite lookup_insert_eq. simpl.
  destruct (PyDict.keys users); [done|].
  destruct (PyDict.get n users); [|done]. by case_bool_decide.
Qed.

(** C2.  With [selectedName] selected, the sign-in form accepts (it
    returns true and leaves the session signed in as [selectedName], with
    the email and the image of the record) exactly when the directory has a
    record for [selectedName] whose stored password is the submitted one,
    code point for code point. *)
Theorem show_login_submit_accepts_iff (users : users_dict)
    (selectedName submittedPassword : pystr) (ss : session_state) :
  ((show_login_submit users submittedPassword
      (<["selected_user" := VStr selectedName]> ss)).1.1 = Return true
   ↔ ∃ u, PyDict.get selectedName users = Some u
          ∧ submittedPassword = password u)
  ∧ ((∃ u ss' msgs,
        PyDict.get selectedName users = Some u
        ∧ show_login_submit users submittedPassword
            (<["selected_user" := VStr selectedName]> ss)
          = (Return true, ss', msgs)
        ∧ ss' = sign_in selectedName u (<["selected_user" := VStr selectedName]> ss)
        ∧ auth_fields ss'
          = (Some (VBool true), Some (VStr selectedName),
             Some (VStr (email u)), Some (VStr (image_url u))))
     ↔ ∃ u, PyDict.get selectedName users = Some u
            ∧ submittedPassword = password u).
Proof.
  rewrite show_login_submit_selected.
  destruct (PyDict.keys users) as [|k ks] eqn:Hkeys.
  { rewrite (keys_nil_get _ selectedName Hkeys). simpl.
    split; split; try done.
    - by intros (u & ? & _).
    - by intros (u & ? & ? & ? & _).
    - by intros (u & ? & _). }
  destruct (PyDict.get selectedName users) as [u|] eqn:Hget.
  2:{ simpl. split; split; try done.
      - by intros (u & ? & _).
      - by intros (u & ? & ? & ? & _).
      - by intros (u & ? & _). }
  case_bool_decide as Hpw; simpl.
  - split; split; eauto.
    intros _. exists u. eexists _, _. split_and!; try done.
    apply auth_fields_sign_in.
  - split; split; try done.
    + intros (u' & [= <-] & ?). done.
    + intros (u' & ? & ? & _ & [=] & _).
    + intros (u' & [= <-] & ?). done.
Qed.

(** C3.  With [selectedName] selected, when the directory has no record for
    it or the submitted password is not the stored one, the sign-in form
    leaves the session as it was and does not accept; on a directory that
    is not empty it returns false and shows the rejection. *)
Theorem show_login_submit_rejects (users : users_dict)
    (selectedName submittedPassword : pystr) (ss : session_state) :
  PyDict.get selectedName users = None
  ∨ (∃ u, PyDict.get selectedName users = Some u
          ∧ submittedPassword ≠ password u) →
  (show_login_submit users submittedPassword
     (<["selected_user" := VStr selectedName]> ss)).1.2
  = <["selected_user" := VStr selectedName]> ss
  ∧ (show_login_submit users submittedPassword
       (<["selected_user" := VStr selectedName]> ss)).1.1 ≠ Return true
  ∧ (users ≠ [] →
     show_login_submit users submittedPassword
       (<["selected_user" := VStr selectedName]> ss)
     = (Return false, <["selected_user" := VStr selectedName]> ss,
        [st_error (10060%N :: py " Invalid credentials. Please try again.")])).
Proof.
  intros Hfail. rewrite show_login_submit_selected.
  destruct (PyDict.keys users) as [|k ks] eqn:Hkeys.
  { split_and!; try done. intros Hne. by destruct users. }
  destruct Hfail as [-> | (u & -> & Hpw)]; [done|].
  by rewrite bool_decide_false.
Qed.

Lemma show_login_submit_rejects_witness :
  (PyDict.get (py "Alice") alice_directory = None
   ∨ (∃ u, PyDict.get (py "Alice") alice_directory = Some u
           ∧ py "wrong" ≠ password u))
  ∧ show_login_submit alice_directory (py "wrong") (session_selecting "Alice")
    = (Return false, session_selecting "Alice",
       [st_error (10060%N :: py " Invalid credentials. Please try again.")]).
Proof.
  assert (Hfail : PyDict.get (py "Alice") alice_directory = None
     ∨ (∃ u, PyDict.get (py "Alice") alice_directory = Some u
             ∧ py "wrong" ≠ password u)).
  { right. eexists. split; [reflexivity|]. vm_compute. discriminate. }
  split; [exact Hfail|].
  apply (show_login_submit_rejects alice_directory (py "Alice") (py "wrong")
           (<["authenticated" := VBool false]> ∅) Hfail).
  discriminate.
Defined.

(** Whatever the session holds as [selected_user]: a sign-in that does not
    accept leaves every attribute as it was. *)
Lemma show_login_submit_unchanged_unless_accepted users pw ss :
  (show_login_submit users pw ss).1.1 ≠ Return true →
  (show_login_submit users pw ss).1.2 = ss.
Proof.
  unfold show_login_submit. destruct (PyDict.keys users); [done|].
  destruct (default _ _); try done.
  destruct (PyDict.get _ _); [|done]. by case_bool_decide.
Qed.

(** The scenario of the specification. *)
Example alice_signs_in :
  (show_login_submit alice_directory (py "abc123") (session_selecting "Alice")).1
  = (Return true,
     sign_in (py "Alice") (UserRecord (py "alice@rn.example") (py "abc123") [])
       (session_selecting "Alice")).
Proof. vm_compute. reflexivity. Qed.

(** The comparison is case sensitive. *)
Example alice_wrong_case :
  (show_login_submit alice_directory (py "ABC123") (session_selecting "Alice")).1
  = (Return false, session_selecting "Alice").
Proof. vm_compute. reflexivity. Qed.

Lemma del_if_present_delete attr (ss : session_state) :
  del_if_present attr ss = delete attr ss.
Proof.
  unfold del_if_present. destruct (ss !! attr) eqn:Hattr; [done|].
  by rewrite delete_id.
Qed.

Lemma logout_unfold (ss : session_state) :
  logout ss
  = delete "user_image"
      (delete "user_email"
        (delete "current_user" (<["authenticated" := VBool false]> ss))).
Proof. unfold logout. by rewrite !del_if_present_delete. Qed.

(** Logging out touches the four attributes and no other. *)
Lemma logout_frame (ss : session_state) (attr : string) :
  attr ≠ "authenticated" → attr ≠ "current_user" →
  attr ≠ "user_email" → attr ≠ "user_image" →
  logout ss !! attr = ss !! attr.
Proof. intros. rewrite logout_unfold. by simplify_map_eq. Qed.

(** C4.  The logout button leaves the session unauthenticated with the
    current user, the email and the image cleared, as the four attributes
    are in a session that has just been initialised, whatever the session
    held before; pressing it twice gives the session that pressing it once
    gives. *)
Theorem show_logout_button_resets (ss : session_state) :
  auth_fields (show_logout_button true ss).1
  = (Some (VBool false), None, None, None)
  ∧ auth_fields (show_logout_button true ss).1
    = auth_fields (check_authentication_init ∅)
  ∧ (show_logout_button true (show_logout_button true ss).1).1
    = (show_logout_button true ss).1.
Proof.
  simpl.
  assert (Hfields : auth_fields (logout ss)
                    = (Some (VBool false), None, None, None)).
  { rewrite logout_unfold. unfold auth_fields. by simplify_map_eq. }
  split_and!; [done | by rewrite Hfields |].
  rewrite !logout_unfold. apply map_eq. intros attr.
  destruct (decide (attr = "user_image")) as [->|?]; [by simplify_map_eq|].
  destruct (decide (attr = "user_email")) as [->|?]; [by simplify_map_eq|].
  destruct (decide (attr = "current_user")) as [->|?]; [by simplify_map_eq|].
  destruct (decide (attr = "authenticated")) as [->|?]; by simplify_map_eq.
Qed.

(** ** The deck assembler *)

Lemma remove_default_shapes_nil (sl : slide) : remove_default_shapes sl = [].
Proof.
  unfold remove_default_shapes. induction sl as [|x sl IH]; [done|].
  simpl. by rewrite decide_True.
Qed.

Lemma fresh_tmp_file (files : gmap nat (pystr * list Byte.byte)) :
  files !! fresh (dom files) = None.
Proof. apply not_elem_of_dom, is_fresh. Qed.

(** What [with_tmp_file] keeps. *)
Lemma with_tmp_file_all tmp_error i image_files :
  all_tmp_files tmp_error image_files →
  with_tmp_file tmp_error i image_files = image_files.
Proof.
  revert i. induction image_files as [|file rest IH]; intros i Hall; [done|].
  cbn [with_tmp_file]. rewrite (Hall i file) by left.
  f_equal. apply IH. intros j f Hf. apply Hall. by right.
Qed.

Lemma with_tmp_file_length tmp_error i image_files :
  (length (with_tmp_file tmp_error i image_files) ≤ length image_files)%nat.
Proof.
  revert i. induction image_files as [|file rest IH]; intros i; [done|].
  cbn [with_tmp_file]. specialize (IH (S i)).
  destruct (tmp_error i (tmp_suffix file)); cbn [length]; lia.
Qed.


Section assembler_facts.
Variable blank_layout : list nat.
Variable native_size : list Byte.byte → option (Z * Z).
Variable image_error : nat → list Byte.byte → pystr.
Variable tmp_error : nat → pystr → option pystr.

(** One turn of the loop.  Without a temporary file the turn leaves the
    presentation and the files alone and logs a line; with one it adds a
    slide, and a picture that fails leaves the file and a line. *)
Lemma process_image_turn auto_resize i file handler p files lg :
  try_except
    (process_image blank_layout native_size image_error tmp_error
       auto_resize i file)
    (λ e, logger_error (handler e)) (MkState p files lg)
  = (Return (),
     match tmp_error i (tmp_suffix file) with
     | Some text =>
         MkState p files (lg ++ [(ERROR, handler (Exn Exception text))])
     | None =>
         MkState
           (MkPresentation (slide_width p) (slide_height p)
              (slides p
               ++ [slide_for native_size auto_resize
                     (slide_width p) (slide_height p) file]))
           (match native_size (getvalue file) with
            | Some _ => files
            | None => <[fresh (dom files) := tmp_file_of file]> files
            end)
           (match native_size (getvalue file) with
            | Some _ => lg
            | None =>
                lg ++ [(ERROR, handler (Exn Exception
                                          (image_error i (getvalue file))))]
            end)
     end).
Proof.
  unfold try_except, process_image, mbind, stmt_bind, NamedTemporaryFile_write,
    tmp_file_of, tmp_suffix.
  destruct (tmp_error i (py "." ++ split_dot_last (name file))) as [text|];
    [done|].
  unfold add_slide, update_slide, add_picture, os_unlink, set_tmp_files,
    set_prs, slide_for, logger_error.
  cbn [prs tmp_files log slide_width slide_height slides].
  rewrite (alter_app_r_alt _ (slides p)) by done.
  rewrite Nat.sub_diag. cbn [alter list_alter].
  rewrite remove_default_shapes_nil.
  destruct auto_resize; cbn [prs tmp_files log slide_width slide_height slides].
  all: rewrite lookup_insert_eq.
  all: destruct (native_size (getvalue file)) as [[nw nh]|] eqn:Hsize;
    [|done].
  all: unfold update_slide, set_prs;
    cbn [default id prs tmp_files log slide_width slide_height slides fst snd].
  all: rewrite (alter_app_r_alt _ (slides p)) by done.
  all: rewrite Nat.sub_diag; cbn [alter list_alter app].
  all: rewrite lookup_insert_eq.
  all: by rewrite delete_insert_id by apply fresh_tmp_file.
Qed.

(** The loop: it returns, with one more slide for every file that has a
    temporary file, in the order of the files; it logs the lines that are
    due; and a file with a temporary file that [add_picture] fails on
    leaves that file on disk. *)
Lemma process_images_run auto_resize image_files i p files lg :
  ∃ files',
    process_images blank_layout native_size image_error tmp_error
      auto_resize i image_files (MkState p files lg)
    = (Return (),
       MkState
         (MkPresentation (slide_width p) (slide_height p)
            (slides p
             ++ (slide_for native_size auto_resize
                   (slide_width p) (slide_height p)
                   <$> with_tmp_file tmp_error i image_files)))
         files'
         (lg ++ error_lines native_size image_error tmp_error i image_files))
    ∧ files ⊆ files'
    ∧ size files'
      = (size files
         + length (unidentified native_size
                     (with_tmp_file tmp_error i image_files)))%nat
    ∧ (unidentified native_size (with_tmp_file tmp_error i image_files) = []
       → files' = files)
    ∧ (∀ path content,
         files' !! path = Some content →
         files !! path = Some content
         ∨ ∃ file, file ∈ unidentified native_size
                            (with_tmp_file tmp_error i image_files)
                   ∧ content = tmp_file_of file).
Proof.
  revert i p files lg.
  induction image_files as [|file rest IH]; intros i p files lg.
  - exists files. simpl. rewrite !app_nil_r. destruct p.
    split_and!; [done | done | lia | done | by left].
  - cbn [process_images]. unfold mbind at 1, stmt_bind at 1.
    rewrite (process_image_turn auto_resize i file
               (λ e, py "Error processing image " ++ name file
                     ++ py ": " ++ exn_str e)).
    cbn [with_tmp_file error_lines].
    destruct (tmp_error i (tmp_suffix file)) as [text|] eqn:Htmp.
    { match goal with
      | |- context [process_images _ _ _ _ _ _ _ (MkState ?p1 ?files1 ?lg1)] =>
          destruct (IH (S i) p1 files1 lg1) as (files' & -> & Hrest)
      end.
      exists files'. split; [|done].
      unfold error_line. cbn [exn_str]. by rewrite <- (assoc_L (++)). }
    match goal with
    | |- context [process_images _ _ _ _ _ _ _ (MkState ?p1 ?files1 ?lg1)] =>
        destruct (IH (S i) p1 files1 lg1)
          as (files' & -> & Hsub & Hsize & Hclean & Hleft)
    end.
    cbn [slide_width slide_height slides] in *.
    exists files'. rewrite <- (assoc_L (++)). cbn [fmap list_fmap app].
    unfold unidentified in *. rewrite filter_cons.
    destruct (native_size (getvalue file)) as [native|] eqn:Hnative.
    + rewrite decide_False by done. rewrite app_nil_l. by split_and!.
    + rewrite decide_True by done. cbn [length].
      pose proof (fresh_tmp_file files) as Hfresh.
      rewrite map_size_insert_None in Hsize by done.
      unfold error_line. cbn [exn_str]. rewrite <- (assoc_L (++)).
      split_and!; [done | | lia | done |].
      * etrans; [by apply insert_subseteq | done].
      * intros path content Hpath.
        destruct (Hleft _ _ Hpath) as [Hold | (f & Hf & ->)].
        -- destruct (decide (fresh (dom files) = path)) as [<-|Hne].
           ++ rewrite lookup_insert_eq in Hold. injection Hold as <-.
              right. exists file. split; [left | done].
           ++ rewrite lookup_insert_ne in Hold by done. by left.
        -- right. exists f. split; [by right | done].
Qed.

(** The function returns, for every list of files: a 16:9 presentation with
    one slide for every file that has a temporary file, in the order of
    the files. *)
Lemma generate_ppt_from_images_run image_files auto_resize files lg :
  ∃ files',
    generate_ppt_from_images blank_layout native_size image_error tmp_error
      image_files auto_resize files lg
    = (Return (MkPresentation 12188952 6858000
                 (slide_for native_size auto_resize 12188952 6858000
                    <$> with_tmp_file tmp_error 0 image_files)),
       files',
       lg ++ error_lines native_size image_error tmp_error 0 image_files)
    ∧ files ⊆ files'
    ∧ size files'
      = (size files
         + length (unidentified native_size
                     (with_tmp_file tmp_error 0 image_files)))%nat
    ∧ (unidentified native_size (with_tmp_file tmp_error 0 image_files) = []
       → files' = files)
    ∧ (∀ path content,
         files' !! path = Some content →
         files !! path = Some content
         ∨ ∃ file, file ∈ unidentified native_size
                            (with_tmp_file tmp_error 0 image_files)
                   ∧ content = tmp_file_of file).
Proof.
  destruct (process_images_run auto_resize image_files 0
              (MkPresentation (Inches (1333 # 100)) (Inches (15 # 2)) [])
              files lg) as (files' & Hrun & Hrest).
  exists files'. split; [|done].
  unfold generate_ppt_from_images, try_except, assemble, get_default_slide_size,
    mbind, stmt_bind, set_slide_size, set_prs, save.
  cbn [prs tmp_files log slides new_Presentation]. by rewrite Hrun.
Qed.
End assembler_facts.

Section assembler_claims.
Variable blank_layout : list nat.
Variable native_size : list Byte.byte → option (Z * Z).
Variable image_error : nat → list Byte.byte → pystr.
Variable tmp_error : nat → pystr → option pystr.

(** C8.  On the empty list of files, with or without resizing, the
    assembler returns a 16:9 presentation without slides; it does not
    raise, and it leaves the temporary files and the log as they were. *)
Theorem generate_ppt_from_images_empty (auto_resize : bool)
    (files : gmap nat (pystr * list Byte.byte)) (lg : list (log_level * pystr)) :
  generate_ppt_from_images blank_layout native_size image_error tmp_error []
    auto_resize files lg
  = (Return (MkPresentation 12188952 6858000 []), files, lg).
Proof. reflexivity. Qed.

(** The assembler returns for every list of files, and the presentation has
    as many slides as there are files with a temporary file, identified or
    not: as many as there are files when every temporary file is
    created. *)
Lemma generate_ppt_one_slide_per_file image_files auto_resize files lg :
  ∃ deck files' lg',
    generate_ppt_from_images blank_layout native_size image_error tmp_error
      image_files auto_resize files lg = (Return deck, files', lg')
    ∧ length (slides deck) = length (with_tmp_file tmp_error 0 image_files)
    ∧ (all_tmp_files tmp_error image_files →
       length (slides deck) = length image_files).
Proof.
  destruct (generate_ppt_from_images_run blank_layout native_size image_error
              tmp_error image_files auto_resize files lg) as (files' & -> & _).
  eexists _, files', _. split; [done|]. simpl. rewrite length_fmap.
  split; [done|]. intros Hall. by rewrite with_tmp_file_all.
Qed.

(** The slide of a file with a temporary file that the image library does
    not identify is there all the same, without any shape. *)
Lemma generate_ppt_slide_of_unidentified_file image_files auto_resize files lg
    i file :
  with_tmp_file tmp_error 0 image_files !! i = Some file →
  native_size (getvalue file) = None →
  ∃ deck files' lg',
    generate_ppt_from_images blank_layout native_size image_error tmp_error
      image_files auto_resize files lg = (Return deck, files', lg')
    ∧ slides deck !! i = Some [].
Proof.
  intros Hfile Hnative.
  destruct (generate_ppt_from_images_run blank_layout native_size image_error
              tmp_error image_files auto_resize files lg) as (files' & -> & _).
  eexists _, files', _. split; [done|]. simpl.
  rewrite list_lookup_fmap, Hfile. simpl. unfold slide_for. by rewrite Hnative.
Qed.

(** With resizing, every shape of every slide is a picture at the origin
    that is as wide and as high as the canvas. *)
Lemma generate_ppt_auto_resize_pictures image_files files lg deck files' lg'
    sl sh :
  generate_ppt_from_images blank_layout native_size image_error tmp_error
    image_files true files lg
  = (Return deck, files', lg') →
  sl ∈ slides deck → sh ∈ sl →
  ∃ p, sh = Pic p ∧ left p = 0 ∧ top p = 0
       ∧ width p = slide_width deck ∧ height p = slide_height deck.
Proof.
  destruct (generate_ppt_from_images_run blank_layout native_size image_error
              tmp_error image_files true files lg) as (files1 & -> & _).
  intros [= <- <- <-]. simpl.
  intros (file & -> & _)%list_elem_of_fmap. unfold slide_for.
  destruct (native_size (getvalue file)); [|by intros ?%elem_of_nil].
  intros ->%list_elem_of_singleton. by eexists.
Qed.
End assembler_claims.

(** C1, on the scenario of the specification.  For a valid, a corrupt and a
    second valid file the assembler returns three slides, not two: the
    slide of the corrupt file was added before its picture failed and
    stays, without a shape, between the other two. *)
Theorem generate_ppt_corrupt_file_keeps_slide :
  ∃ deck,
    (generate_ppt_from_images [] example_native_size example_image_error
       example_tmp_error [valid_png; corrupt_jpg; valid2_png] true ∅ []).1.1
    = Return deck
    ∧ length (unidentified example_native_size
                [valid_png; corrupt_jpg; valid2_png]) = 1%nat
    ∧ length (slides deck) = 3%nat
    ∧ slides deck
      = [ [Pic (Picture (getvalue valid_png) 0 0 12188952 6858000)];
          [];
          [Pic (Picture (getvalue valid2_png) 0 0 12188952 6858000)] ].
Proof. eexists. split_and!; vm_compute; reflexivity. Qed.

(** C5, at a corrupt file.  With resizing, the presentation for a single
    corrupt file has one slide, and that slide holds no picture. *)
Theorem generate_ppt_auto_resize_slide_without_picture :
  ∃ deck,
    (generate_ppt_from_images [] example_native_size example_image_error
       example_tmp_error [corrupt_jpg] true ∅ []).1.1
    = Return deck
    ∧ slides deck = [[]]
    ∧ ¬ (∀ sl, sl ∈ slides deck →
           has_picture_at_origin (slide_width deck) (slide_height deck) sl).
Proof.
  eexists. split_and!; [vm_compute; reflexivity | reflexivity |].
  intros Hall. destruct (Hall []) as (p & Hp & _); [left|].
  by apply elem_of_nil in Hp.
Qed.

(** C6, at a corrupt file.  Without resizing, the slide of the valid file
    holds its picture at the native size, and the slide of the corrupt file
    holds no picture. *)
Theorem generate_ppt_native_size_slide_without_picture :
  ∃ deck,
    (generate_ppt_from_images [] example_native_size example_image_error
       example_tmp_error [valid_png; corrupt_jpg] false ∅ []).1.1
    = Return deck
    ∧ example_native_size (getvalue valid_png) = Some (38100, 28575)
    ∧ slides deck = [[Pic (Picture (getvalue valid_png) 0 0 38100 28575)]; []]
    ∧ ¬ (∀ sl, sl ∈ slides deck →
           ∃ w h, has_picture_at_origin w h sl).
Proof.
  eexists. split_and!; [vm_compute; reflexivity | reflexivity | reflexivity |].
  intros Hall. destruct (Hall []) as (w & h & p & Hp & _); [right; left|].
  by apply elem_of_nil in Hp.
Qed.

(** C9, at corrupt files.  The temporary file of a file whose picture fails
    is not unlinked: after a corrupt, a valid and another corrupt file, two
    temporary files are left on disk. *)
Theorem generate_ppt_failed_file_leaves_tmp_file :
  (generate_ppt_from_images [] example_native_size example_image_error
     example_tmp_error [corrupt_jpg; valid_png; corrupt_jpg] true ∅ []).1.2
  = <[1%nat := (py ".jpg", getvalue corrupt_jpg)]>
      (<[0%nat := (py ".jpg", getvalue corrupt_jpg)]> ∅)
  ∧ size (generate_ppt_from_images [] example_native_size example_image_error
            example_tmp_error [corrupt_jpg; valid_png; corrupt_jpg] true
            ∅ []).1.2 = 2%nat.
Proof. split; vm_compute; reflexivity. Qed.

(** ** The gate as a whole *)

Lemma is_authenticated_init (ss : session_state) :
  is_authenticated (check_authentication_init ss) = is_authenticated ss.
Proof.
  unfold check_authentication_init, is_authenticated.
  destruct (ss !! "authenticated") eqn:Hauth; [by rewrite Hauth|].
  by simplify_map_eq.
Qed.

Lemma is_authenticated_select (ss : session_state) v :
  is_authenticated (<["selected_user" := v]> ss) = is_authenticated ss.
Proof. unfold is_authenticated. by simplify_map_eq. Qed.

Lemma check_authentication_init_authenticated (ss : session_state) :
  is_authenticated ss = true → check_authentication_init ss = ss.
Proof.
  unfold check_authentication_init, is_authenticated.
  by destruct (ss !! "authenticated").
Qed.

(** The sign-in form accepts only on a record of the directory whose
    password is the text submitted, and signs that user in. *)
Lemma show_login_submit_accepted users pw ss ss' shown :
  show_login_submit users pw ss = (Return true, ss', shown) →
  ∃ n u, PyDict.get n users = Some u ∧ pw = password u
         ∧ ss' = sign_in n u ss
         ∧ shown = [st_success (127881%N :: py " Welcome back, " ++ n ++ py "!")]
         ∧ (∀ v, ss !! "selected_user" = Some v → v = VStr n).
Proof.
  unfold show_login_submit. destruct (PyDict.keys users); [done|].
  destruct (default _ _) as [| |n|] eqn:Hsel; try done.
  destruct (PyDict.get n users) as [u|] eqn:Hget; [|done].
  case_bool_decide; [|done]. intros [= <- <-]. exists n, u.
  split_and!; [done..|]. intros v Hv. by rewrite Hv in Hsel.
Qed.

Lemma show_login_submit_not_accepted users pw ss r ss' shown :
  show_login_submit users pw ss = (r, ss', shown) →
  r ≠ Return true → ss' = ss.
Proof.
  intros Hrun Hr.
  pose proof (show_login_submit_unchanged_unless_accepted users pw ss) as Hsame.
  rewrite Hrun in Hsame. by apply Hsame.
Qed.

Lemma sign_in_selected n u (ss : session_state) :
  sign_in n u ss !! "selected_user" = ss !! "selected_user".
Proof. unfold sign_in. by simplify_map_eq. Qed.

Lemma is_authenticated_sign_in n u (ss : session_state) :
  is_authenticated (sign_in n u ss) = true.
Proof. unfold is_authenticated, sign_in. by simplify_map_eq. Qed.

Lemma is_authenticated_logout (ss : session_state) :
  is_authenticated (logout ss) = false.
Proof. unfold is_authenticated. rewrite logout_unfold. by simplify_map_eq. Qed.

Lemma records_loop_raises users records e :
  records_loop users records = Raise e → exn_cls e = AttributeError.
Proof.
  revert users. induction records as [|r records IH]; intros users; simpl; [done|].
  destruct (add_record users r) as [users1|e1] eqn:Hadd; simpl; [apply IH|].
  intros [= ->]. revert Hadd. unfold add_record.
  repeat (match goal with
          | |- context [cell_strip ?c] => destruct c; simpl; try done
          end; try by intros [= <-]).
  by destruct (_ && _).
Qed.

(** The function raises only what the fetch raised, and only when that is no
    [Exception]. *)
Lemma load_users_from_sheet_raises fetched e msgs :
  load_users_from_sheet fetched = (Raise e, msgs) →
  fetched = Raise e ∧ is_Exception e = false.
Proof.
  unfold load_users_from_sheet, is_Exception. destruct fetched as [records|e0]; simpl.
  - destruct (records_loop [] records) as [users|e1] eqn:Hloop; [done|].
    by rewrite (records_loop_raises _ _ _ Hloop).
  - destruct (exn_cls e0) eqn:Hcls; try done. intros [= <- <-]. by rewrite Hcls.
Qed.

Lemma get_Some_keys {V} (d : list (pystr * V)) k v :
  PyDict.get k d = Some v → k ∈ PyDict.keys d.
Proof. intros Hget. apply mem_keys. unfold PyDict.mem. by rewrite Hget. Qed.

(** The panels: another name was picked, the form was not submitted or
    rejected, or the form was accepted. *)
Lemma show_login_panels_cases users w sel ss msgs end_ ss' msgs' :
  ss !! "selected_user" = Some (VStr sel) →
  sel ∈ PyDict.keys users →
  show_login_panels users w sel ss msgs = (end_, ss', msgs') →
  ((end_ = Rerun ∨ end_ = Returned false)
   ∧ is_authenticated ss' = is_authenticated ss
   ∧ ∃ n, ss' !! "selected_user" = Some (VStr n) ∧ n ∈ PyDict.keys users)
  ∨ (end_ = Rerun ∧ login_button w = true
     ∧ ∃ n u, PyDict.get n users = Some u
              ∧ password_input w = password u
              ∧ n ∈ PyDict.keys users
              ∧ ss' !! "selected_user" = Some (VStr n)
              ∧ ss' !! "current_user" = Some (VStr n)
              ∧ auth_fields ss'
                = (Some (VBool true), Some (VStr n),
                   Some (VStr (email u)), Some (VStr (image_url u)))).
Proof.
  intros Hsel Hin. unfold show_login_panels.
  case_bool_decide as Hnew.
  { intros [= <- <- <-]. left. split; [by left|].
    rewrite is_authenticated_select, lookup_insert_eq. split; [done|].
    eexists. split; [done|].
    destruct (user_dropdown w) as [picked|]; [|done].
    destruct (PyDict.mem picked users) eqn:Hmem; [by apply mem_keys | done]. }
  destruct (login_button w); [|intros [= <- <- <-]; left; by eauto 10].
  destruct (show_login_submit users (password_input w) ss)
    as [[[[]|e] ss1] shown] eqn:Hsubmit.
  - intros [= <- <- <-]. right.
    apply show_login_submit_accepted in Hsubmit
      as (n & u & Hget & Hpw & -> & _ & Hn).
    specialize (Hn _ Hsel) as [= ->].
    split_and!; [done..|]. exists n, u.
    rewrite sign_in_selected, auth_fields_sign_in.
    split_and!; [done | done | done | done | | done].
    unfold sign_in. by simplify_map_eq.
  - intros [= <- <- <-]. left.
    apply show_login_submit_not_accepted in Hsubmit as ->; [|done]. by eauto 10.
  - intros _. exfalso. revert Hsubmit. unfold show_login_submit.
    destruct (PyDict.keys users); [by apply elem_of_nil in Hin|].
    rewrite Hsel. simpl. destruct (PyDict.get sel users); [|done].
    by case_bool_decide.
Qed.

(** Every way through [show_login]: what it ends in and what it leaves in
    the session. *)
Lemma show_login_cases fetched w ss end_ ss' msgs :
  show_login fetched w ss = (end_, ss', msgs) →
  (* the fetch let an exception that is no [Exception] through *)
  (∃ e, fetched = Raise e ∧ is_Exception e = false
        ∧ end_ = Escaped e ∧ ss' = ss)
  (* no directory *)
  ∨ ((load_users_from_sheet fetched).1 = Return []
     ∧ end_ = Returned false ∧ ss' = ss
     ∧ list.last msgs = Some (st_error
         (py "Unable to load user data. Please contact support.")))
  (* a directory *)
  ∨ (∃ users shown, load_users_from_sheet fetched = (Return users, shown)
       ∧ users ≠ []
       ∧ ((* a selection that is no name and cannot be looked up *)
          (∃ e, end_ = Escaped e ∧ exn_cls e = TypeError
                ∧ is_authenticated ss' = is_authenticated ss)
          (* another name or no form: the selection is a name of the
             directory, nobody is signed in *)
          ∨ ((end_ = Rerun ∨ end_ = Returned false)
             ∧ is_authenticated ss' = is_authenticated ss
             ∧ ∃ n, ss' !! "selected_user" = Some (VStr n)
                    ∧ n ∈ PyDict.keys users)
          (* the form, accepted *)
          ∨ (end_ = Rerun ∧ login_button w = true
             ∧ ∃ n u, PyDict.get n users = Some u
                      ∧ password_input w = password u
                      ∧ n ∈ PyDict.keys users
                      ∧ ss' !! "selected_user" = Some (VStr n)
                      ∧ ss' !! "current_user" = Some (VStr n)
                      ∧ auth_fields ss'
                        = (Some (VBool true), Some (VStr n),
                           Some (VStr (email u)), Some (VStr (image_url u)))))).
Proof.
  unfold show_login.
  destruct (load_users_from_sheet fetched) as [[users|e] shown] eqn:Hload.
  2:{ intros [= <- <- <-]. left. exists e.
      by destruct (load_users_from_sheet_raises _ _ _ Hload). }
  destruct (PyDict.keys users) as [|first_key ks] eqn:Hkeys.
  { intros [= <- <- <-]. right; left. rewrite last_snoc.
    destruct users; [done | discriminate]. }
  intros Hrun. right; right. exists users, shown.
  split; [done|]. split; [by destruct users|].
  assert (Hfirst : first_key ∈ PyDict.keys users) by (rewrite Hkeys; left).
  remember (match ss !! "selected_user" with
            | Some VNone | None => <["selected_user" := VStr first_key]> ss
            | _ => ss
            end) as ss1 eqn:Hss1.
  assert (Hauth1 : is_authenticated ss1 = is_authenticated ss).
  { subst ss1. repeat case_match; by rewrite ?is_authenticated_select. }
  assert (Hsel1 : ∃ v, ss1 !! "selected_user" = Some v ∧ v ≠ VNone
                       ∧ (v = VStr first_key ∨ ss1 = ss)).
  { subst ss1. destruct (ss !! "selected_user") as [[]|] eqn:Hsel;
      simplify_map_eq; eauto 10. }
  clear Hss1. destruct Hsel1 as (v & Hv & Hnone & _).
  rewrite Hv in Hrun. simpl in Hrun.
  assert (Hrepaired : ∀ end0 ss0 msgs0,
    show_login_panels users w first_key
      (<["selected_user" := VStr first_key]> ss1) shown = (end0, ss0, msgs0) →
    ((end0 = Rerun ∨ end0 = Returned false)
     ∧ is_authenticated ss0 = is_authenticated ss
     ∧ ∃ n, ss0 !! "selected_user" = Some (VStr n) ∧ n ∈ PyDict.keys users)
    ∨ (end0 = Rerun ∧ login_button w = true
       ∧ ∃ n u, PyDict.get n users = Some u
                ∧ password_input w = password u
                ∧ n ∈ PyDict.keys users
                ∧ ss0 !! "selected_user" = Some (VStr n)
                ∧ ss0 !! "current_user" = Some (VStr n)
                ∧ auth_fields ss0
                  = (Some (VBool true), Some (VStr n),
                     Some (VStr (email u)), Some (VStr (image_url u))))).
  { intros end0 ss0 msgs0 Hpanels.
    apply show_login_panels_cases in Hpanels
      as [(? & Hauth & ?) | ?]; [| |by apply lookup_insert_eq|done]; [|by right].
    left. by rewrite Hauth, is_authenticated_select, Hauth1 in *. }
  destruct v as [|b|n|l]; [done| | |]; simpl in Hrun.
  - right. by eapply Hrepaired.
  - destruct (PyDict.mem n users) eqn:Hmem; [|right; by eapply Hrepaired].
    right. apply show_login_panels_cases in Hrun
      as [(? & Hauth & ?) | ?]; [| |done|by apply mem_keys]; [|by right].
    left. by rewrite Hauth, Hauth1.
  - injection Hrun as <- <- <-. left. by eauto.
Qed.

(** X1.  The gate fails closed.  When the directory comes back empty (the
    sheet has no complete row, or the fetch failed with an [Exception]),
    [check_authentication] on a session that is not authenticated returns
    false whatever the widgets hold, shows that the user data could not be
    loaded, and leaves the session unauthenticated: only the defaults of a
    new session are filled in. *)
Theorem check_authentication_fails_closed
    (fetched : result (list sheet_record)) (w : login_widgets)
    (ss : session_state) :
  is_authenticated ss = false →
  (load_users_from_sheet fetched).1 = Return [] →
  ∃ msgs,
    check_authentication fetched w ss
    = (Returned false, check_authentication_init ss, msgs)
    ∧ list.last msgs
      = Some (st_error (py "Unable to load user data. Please contact support."))
    ∧ is_authenticated (check_authentication_init ss) = false.
Proof.
  intros Hauth Hload. unfold check_authentication, show_login.
  rewrite is_authenticated_init, Hauth.
  destruct (load_users_from_sheet fetched) as [r shown]. simpl in Hload.
  subst r. simpl. eexists. split_and!; [done | apply last_snoc | done].
Qed.

Lemma check_authentication_fails_closed_witness :
  is_authenticated ∅ = false
  ∧ (load_users_from_sheet (Raise (Exn RefreshError (py "invalid_grant")))).1
    = Return []
  ∧ ∃ msgs,
      check_authentication (Raise (Exn RefreshError (py "invalid_grant")))
        (submitting "abc123") ∅
      = (Returned false, check_authentication_init ∅, msgs).
Proof.
  assert (Hauth : is_authenticated ∅ = false) by reflexivity.
  assert (Hload : (load_users_from_sheet
                     (Raise (Exn RefreshError (py "invalid_grant")))).1
                  = Return []) by reflexivity.
  split; [exact Hauth|]. split; [exact Hload|].
  destruct (check_authentication_fails_closed
              (Raise (Exn RefreshError (py "invalid_grant")))
              (submitting "abc123") ∅ Hauth Hload) as (msgs & Hrun & _).
  exists msgs. exact Hrun.
Defined.

(** X2.  Nobody is signed in without the password.  When a run of
    [check_authentication] turns a session that is not authenticated into
    an authenticated one, the form was submitted, the directory holds a
    record whose password is exactly the text submitted, the session is
    signed in as that user, and the run ends in a rerun. *)
Theorem check_authentication_sound
    (fetched : result (list sheet_record)) (w : login_widgets)
    (ss ss' : session_state) (end_ : script_end) (msgs : list ui_msg) :
  check_authentication fetched w ss = (end_, ss', msgs) →
  is_authenticated ss = false →
  is_authenticated ss' = true →
  end_ = Rerun ∧ login_button w = true
  ∧ ∃ users shown n u,
      load_users_from_sheet fetched = (Return users, shown)
      ∧ PyDict.get n users = Some u
      ∧ password_input w = password u
      ∧ auth_fields ss'
        = (Some (VBool true), Some (VStr n),
           Some (VStr (email u)), Some (VStr (image_url u))).
Proof.
  unfold check_authentication. rewrite is_authenticated_init.
  intros Hrun Hauth Hauth'. rewrite Hauth in Hrun.
  destruct (show_login fetched w (check_authentication_init ss))
    as [[end1 ss1] msgs1] eqn:Hlogin.
  assert (Hss1 : ss1 = ss').
  { destruct end1; [congruence..|]. destruct (is_Exception e); congruence. }
  subst ss1. rewrite <- (is_authenticated_init ss) in Hauth.
  apply show_login_cases in Hlogin
    as [(e & _ & _ & _ & ->)
       | [(_ & _ & -> & _)
         | (users & shown & Hload & _
            & [(e & _ & _ & Hsame) | [(_ & Hsame & _) | Haccepted]])]];
    try congruence.
  destruct Haccepted as (-> & Hbutton & n & u & Hget & Hpw & _ & _ & _ & Hfields).
  injection Hrun as <- <-. split_and!; [done..|]. by exists users, shown, n, u.
Qed.

Lemma check_authentication_sound_witness :
  check_authentication (Return alice_sheet) (submitting "abc123")
    (session_selecting "Alice")
  = (Rerun,
     sign_in (py "Alice") (UserRecord (py "alice@rn.example") (py "abc123") [])
       (session_selecting "Alice"),
     [st_success (127881%N :: py " Welcome back, Alice!")])
  ∧ login_button (submitting "abc123") = true.
Proof.
  assert (Hrun : check_authentication (Return alice_sheet) (submitting "abc123")
                   (session_selecting "Alice")
    = (Rerun,
       sign_in (py "Alice") (UserRecord (py "alice@rn.example") (py "abc123") [])
         (session_selecting "Alice"),
       [st_success (127881%N :: py " Welcome back, Alice!")]))
    by (vm_compute; reflexivity).
  split; [exact Hrun|].
  destruct (check_authentication_sound _ _ _ _ _ _ Hrun) as (_ & Hbutton & _);
    [reflexivity | reflexivity | exact Hbutton].
Defined.

Lemma check_authentication_authenticated fetched w (ss : session_state) :
  is_authenticated ss = true →
  check_authentication fetched w ss = (Returned true, ss, []).
Proof.
  intros Hauth. unfold check_authentication.
  by rewrite is_authenticated_init, Hauth,
    check_authentication_init_authenticated.
Qed.

Lemma check_authentication_returned_true fetched w (ss : session_state) :
  (check_authentication fetched w ss).1.1 = Returned true →
  is_authenticated ss = true.
Proof.
  destruct (is_authenticated ss) eqn:Hauth; [done|].
  unfold check_authentication. rewrite is_authenticated_init, Hauth.
  destruct (show_login fetched w (check_authentication_init ss))
    as [[end1 ss1] msgs1] eqn:Hlogin.
  apply show_login_cases in Hlogin
    as [(e & _ & Hexn & -> & _)
       | [(_ & -> & _)
         | (users & shown & _ & _
            & [(e & -> & Hcls & _) | [([-> | ->] & _) | (-> & _)]])]];
    simpl; try done.
  - by rewrite Hexn.
  - unfold is_Exception. by rewrite Hcls.
Qed.

(** X3.  [check_authentication] returns true exactly on a session that is
    authenticated already, and then it leaves the session alone, shows
    nothing and does not look at the directory or the widgets.  The run in
    which a visitor signs in does not return true: it ends in a rerun. *)
Theorem check_authentication_true_iff
    (fetched : result (list sheet_record)) (w : login_widgets)
    (ss : session_state) :
  ((check_authentication fetched w ss).1.1 = Returned true
   ↔ is_authenticated ss = true)
  ∧ (is_authenticated ss = true →
     check_authentication fetched w ss = (Returned true, ss, [])).
Proof.
  split; [|apply check_authentication_authenticated].
  split; [apply check_authentication_returned_true|].
  by intros ->%(check_authentication_authenticated fetched w).
Qed.

(** X4.  Whenever [show_login] has a directory and ends without an
    exception, the session's [selected_user] is a name of the directory:
    a missing, empty or stale selection is repaired. *)
Theorem show_login_selects_known_user
    (fetched : result (list sheet_record)) (w : login_widgets)
    (ss ss' : session_state) (end_ : script_end) (msgs : list ui_msg)
    (users : users_dict) (shown : list ui_msg) :
  show_login fetched w ss = (end_, ss', msgs) →
  load_users_from_sheet fetched = (Return users, shown) →
  users ≠ [] →
  (∀ e, end_ ≠ Escaped e) →
  ∃ n, ss' !! "selected_user" = Some (VStr n) ∧ n ∈ PyDict.keys users.
Proof.
  intros Hlogin Hload Hne Hend.
  apply show_login_cases in Hlogin
    as [(e & _ & _ & -> & _)
       | [(Hempty & _)
         | (users1 & shown1 & Hload1 & _
            & [(e & -> & _) | [(_ & _ & Hsel) | (_ & _ & Hsel)]])]].
  - by destruct (Hend e).
  - rewrite Hload in Hempty. simpl in Hempty. congruence.
  - by destruct (Hend e).
  - rewrite Hload in Hload1. by injection Hload1 as <- <-.
  - rewrite Hload in Hload1. injection Hload1 as <- <-.
    destruct Hsel as (n & u & _ & _ & Hin & Hsel & _). by exists n.
Qed.

Lemma show_login_selects_known_user_witness :
  show_login (Return alice_sheet) (LoginWidgets None [] false)
    (<["selected_user" := VStr (py "Mallory")]> ∅)
  = (Returned false, <["selected_user" := VStr (py "Alice")]> ∅, [])
  ∧ ∃ n, (<["selected_user" := VStr (py "Alice")]> ∅ : session_state)
           !! "selected_user" = Some (VStr n)
         ∧ n ∈ PyDict.keys alice_directory.
Proof.
  assert (Hrun : show_login (Return alice_sheet) (LoginWidgets None [] false)
                   (<["selected_user" := VStr (py "Mallory")]> ∅)
                 = (Returned false, <["selected_user" := VStr (py "Alice")]> ∅, []))
    by (vm_compute; reflexivity).
  split; [exact Hrun|].
  apply (show_login_selects_known_user _ _ _ _ _ _ alice_directory [] Hrun).
  - vm_compute. reflexivity.
  - discriminate.
  - discriminate.
Defined.

(** X5.  No [Exception] leaves [check_authentication].  What leaves it is
    what the fetch of the directory raised, and only when that is no
    [Exception]; a selection that cannot be looked up, for one, ends in the
    message of the handler and in false. *)
Theorem check_authentication_catches
    (fetched : result (list sheet_record)) (w : login_widgets)
    (ss ss' : session_state) (e : exn) (msgs : list ui_msg) :
  check_authentication fetched w ss = (Escaped e, ss', msgs) →
  fetched = Raise e ∧ is_Exception e = false.
Proof.
  unfold check_authentication.
  destruct (is_authenticated (check_authentication_init ss)); [done|].
  destruct (show_login fetched w (check_authentication_init ss))
    as [[end1 ss1] msgs1] eqn:Hlogin.
  apply show_login_cases in Hlogin
    as [(e1 & Hraise & Hexn & -> & _)
       | [(_ & -> & _)
         | (users & shown & _ & _
            & [(e1 & -> & Hcls & _) | [([-> | ->] & _) | (-> & _)]])]];
    try done.
  - rewrite Hexn. by intros [= <- <- <-].
  - unfold is_Exception. by rewrite Hcls.
Qed.

Lemma check_authentication_catches_witness :
  check_authentication (Raise (Exn BaseException (py "KeyboardInterrupt")))
    (submitting "") ∅
  = (Escaped (Exn BaseException (py "KeyboardInterrupt")),
     check_authentication_init ∅, [])
  ∧ is_Exception (Exn BaseException (py "KeyboardInterrupt")) = false.
Proof.
  assert (Hrun : check_authentication
                   (Raise (Exn BaseException (py "KeyboardInterrupt")))
                   (submitting "") ∅
                 = (Escaped (Exn BaseException (py "KeyboardInterrupt")),
                    check_authentication_init ∅, []))
    by (vm_compute; reflexivity).
  split; [exact Hrun|].
  exact (proj2 (check_authentication_catches _ _ _ _ _ _ Hrun)).
Defined.

(** A selection that is a list: the [TypeError] of the lookup is caught. *)
Example check_authentication_unhashable_selection :
  check_authentication (Return alice_sheet) (submitting "abc123")
    (<["selected_user" := VList []]> (<["authenticated" := VBool false]> ∅))
  = (Returned false,
     <["selected_user" := VList []]> (<["authenticated" := VBool false]> ∅),
     [st_error (py "Authentication error: unhashable type: 'list'")]).
Proof. vm_compute. reflexivity. Qed.

(** X6.  Signing in, coming back and logging out.  With the directory
    loaded, [n] selected and the password of [n] submitted, the run signs
    [n] in and ends in a rerun; every later run of [check_authentication]
    returns true and leaves the session alone, whatever the directory has
    become; and after the logout button no run returns true. *)
Theorem sign_in_then_logout
    (fetched : result (list sheet_record)) (users : users_dict)
    (shown : list ui_msg) (n : pystr) (u : user_record)
    (w : login_widgets) (ss : session_state) :
  load_users_from_sheet fetched = (Return users, shown) →
  PyDict.get n users = Some u →
  ss !! "authenticated" = Some (VBool false) →
  ss !! "selected_user" = Some (VStr n) →
  user_dropdown w = None → login_button w = true →
  password_input w = password u →
  check_authentication fetched w ss
  = (Rerun, sign_in n u ss,
     shown ++ [st_success (127881%N :: py " Welcome back, " ++ n ++ py "!")])
  ∧ (∀ fetched' w',
       check_authentication fetched' w' (sign_in n u ss)
       = (Returned true, sign_in n u ss, []))
  ∧ (∀ fetched' w',
       (check_authentication fetched' w'
          (show_logout_button true (sign_in n u ss)).1).1.1 ≠ Returned true).
Proof.
  intros Hload Hget Hauth Hsel Hdrop Hbutton Hpw. split_and!.
  - assert (Hnot : is_authenticated ss = false)
      by (unfold is_authenticated; by rewrite Hauth).
    assert (Hinit : check_authentication_init ss = ss)
      by (unfold check_authentication_init; by rewrite Hauth).
    pose proof (get_Some_keys _ _ _ Hget) as Hin.
    destruct (PyDict.keys users) as [|first_key ks] eqn:Hkeys;
      [by apply elem_of_nil in Hin|].
    assert (Hsubmit : show_login_submit users (password_input w) ss
              = (Return true, sign_in n u ss,
                 [st_success (127881%N :: py " Welcome back, " ++ n ++ py "!")])).
    { unfold show_login_submit. rewrite Hkeys, Hsel.
      cbn [default from_option id]. by rewrite Hget, Hpw, bool_decide_true. }
    assert (Hmem : PyDict.mem n users = true)
      by (unfold PyDict.mem; by rewrite Hget).
    unfold check_authentication. rewrite Hinit, Hnot.
    unfold show_login. rewrite Hload, Hkeys. cbv zeta. rewrite Hsel.
    cbv iota. rewrite Hsel. cbn [default from_option id in_users]. rewrite Hmem.
    unfold show_login_panels. rewrite Hdrop, Hsel, Hbutton.
    rewrite bool_decide_false by (by intros []).
    by rewrite Hsubmit.
  - intros fetched' w'. apply check_authentication_authenticated.
    apply is_authenticated_sign_in.
  - intros fetched' w' Htrue.
    apply check_authentication_returned_true in Htrue.
    simpl in Htrue. by rewrite is_authenticated_logout in Htrue.
Qed.

Lemma sign_in_then_logout_witness :
  load_users_from_sheet (Return alice_sheet) = (Return alice_directory, [])
  ∧ check_authentication (Return alice_sheet) (submitting "abc123")
      (session_selecting "Alice")
    = (Rerun,
       sign_in (py "Alice") (UserRecord (py "alice@rn.example") (py "abc123") [])
         (session_selecting "Alice"),
       [] ++ [st_success (127881%N :: py " Welcome back, " ++ py "Alice" ++ py "!")]).
Proof.
  split; [vm_compute; reflexivity|].
  apply (sign_in_then_logout (Return alice_sheet) alice_directory []
           (py "Alice") (UserRecord (py "alice@rn.example") (py "abc123") [])
           (submitting "abc123") (session_selecting "Alice"));
    vm_compute; reflexivity.
Defined.

(** ** The order of the directory *)

Lemma keys_set_head {V} (k : pystr) (v : V) (d : list (pystr * V)) :
  d ≠ [] → head (PyDict.keys (PyDict.set k v d)) = head (PyDict.keys d).
Proof.
  intros Hd. rewrite keys_set. destruct (PyDict.mem k d); [done|].
  by destruct d.
Qed.

Lemma set_nonempty {V} (k : pystr) (v : V) (d : list (pystr * V)) :
  PyDict.set k v d ≠ [].
Proof. destruct d as [|[k' v'] d]; simpl; [done|]. by destruct (decide _). Qed.

Lemma records_loop_head users records users' :
  records_loop users records = Return users' →
  users ≠ [] →
  head (PyDict.keys users') = head (PyDict.keys users).
Proof.
  revert users. induction records as [|r records IH]; intros users; simpl.
  - by intros [= <-].
  - destruct (add_record users r) as [users1|e] eqn:Hadd; simpl; [|done].
    intros Hloop Hne.
    apply add_record_inv in Hadd as [[-> _] | (n & u & _ & ->)]; [by apply IH|].
    rewrite (IH _ Hloop) by apply set_nonempty. by apply keys_set_head.
Qed.

Lemma records_loop_incomplete users pre post :
  Forall row_incomplete pre →
  records_loop users (pre ++ post) = records_loop users post.
Proof.
  induction 1 as [|r pre Hr _ IH]; simpl; [done|].
  by rewrite (add_record_incomplete _ _ Hr).
Qed.

(** X7.  The directory keeps the order of the sheet: after a load without
    a message, the first name of the directory is the name of the first
    complete row, whatever rows follow it. *)
Theorem load_users_from_sheet_first_key
    (pre post : list sheet_record) (record : sheet_record) (n : pystr)
    (u : user_record) (users : users_dict) :
  Forall row_incomplete pre →
  row_gives record n u →
  load_users_from_sheet (Return (pre ++ record :: post)) = (Return users, []) →
  head (PyDict.keys users) = Some n.
Proof.
  intros Hpre Hrow Hload. apply load_users_from_sheet_fetched in Hload.
  rewrite (records_loop_incomplete _ _ _ Hpre) in Hload. simpl in Hload.
  rewrite (add_record_complete _ _ _ _ Hrow) in Hload. simpl in Hload.
  by rewrite (records_loop_head _ _ _ Hload).
Qed.

Lemma load_users_from_sheet_first_key_witness :
  Forall row_incomplete [sheet_row "  " "nobody@rn.example" "x" ""]
  ∧ load_users_from_sheet
      (Return ([sheet_row "  " "nobody@rn.example" "x" ""]
               ++ sheet_row "Bob" "bob@rn.example" "hunter2" ""
               :: alice_sheet))
    = (Return [(py "Bob", UserRecord (py "bob@rn.example") (py "hunter2") []);
               (py "Alice", UserRecord (py "alice@rn.example") (py "abc123") [])],
       [])
  ∧ head (PyDict.keys
            [(py "Bob", UserRecord (py "bob@rn.example") (py "hunter2") []);
             (py "Alice", UserRecord (py "alice@rn.example") (py "abc123") [])])
    = Some (py "Bob").
Proof.
  assert (Hpre : Forall row_incomplete [sheet_row "  " "nobody@rn.example" "x" ""]).
  { constructor; [|constructor].
    exists (py "  "), (py "nobody@rn.example"), (py "x"), [].
    split_and!; try (vm_compute; reflexivity). left. vm_compute. reflexivity. }
  assert (Hload : load_users_from_sheet
      (Return ([sheet_row "  " "nobody@rn.example" "x" ""]
               ++ sheet_row "Bob" "bob@rn.example" "hunter2" ""
               :: alice_sheet))
    = (Return [(py "Bob", UserRecord (py "bob@rn.example") (py "hunter2") []);
               (py "Alice", UserRecord (py "alice@rn.example") (py "abc123") [])],
       [])) by (vm_compute; reflexivity).
  split; [exact Hpre|]. split; [exact Hload|].
  apply (load_users_from_sheet_first_key
           [sheet_row "  " "nobody@rn.example" "x" ""] alice_sheet
           (sheet_row "Bob" "bob@rn.example" "hunter2" "") (py "Bob")
           (UserRecord (py "bob@rn.example") (py "hunter2") []) _ Hpre);
    [|exact Hload].
  exists (py "Bob"), (py "bob@rn.example"), (py "hunter2"), [].
  split_and!; try (vm_compute; reflexivity); vm_compute; discriminate.
Defined.

(** ** Numbers in the sheet *)

Lemma add_record_raises users record e :
  add_record users record = Raise e →
  e = Exn AttributeError (py "'int' object has no attribute 'strip'")
  ∨ e = Exn AttributeError (py "'float' object has no attribute 'strip'").
Proof.
  unfold add_record.
  repeat (match goal with
          | |- context [cell_strip ?c] => destruct c; simpl
          end; try (intros [= <-]; by eauto)).
  by destruct (_ && _).
Qed.

Lemma add_record_numeric users record :
  has_numeric_cell record → ∃ e, add_record users record = Raise e.
Proof.
  unfold has_numeric_cell, add_record.
  destruct (record_get "Name" record); simpl; [|by eauto..].
  destruct (record_get "Email" record); simpl; [|by eauto..].
  destruct (record_get "Password" record); simpl; [|by eauto..].
  destruct (record_get "Image_URL" record); simpl; [|by eauto..].
  by intros [[] | [[] | [[] | []]]].
Qed.

Lemma records_loop_numeric users records :
  Exists has_numeric_cell records →
  ∃ e, records_loop users records = Raise e
       ∧ (e = Exn AttributeError (py "'int' object has no attribute 'strip'")
          ∨ e = Exn AttributeError (py "'float' object has no attribute 'strip'")).
Proof.
  intros Hnum. revert users.
  induction Hnum as [r records Hr | r records _ IH]; intros users; simpl.
  - destruct (add_record_numeric users r Hr) as [e He]. rewrite He. simpl.
    exists e. split; [done|]. by apply add_record_raises in He.
  - destruct (add_record users r) as [users1|e] eqn:Hadd; simpl; [apply IH|].
    exists e. split; [done|]. by apply add_record_raises in Hadd.
Qed.

(** X8.  One number spoils the sheet.  When a row holds a number in one of
    the four columns (a password of digits, say), the loop over the records
    fails on its [strip] and the function returns the empty directory with
    the message of the last handler, whatever the other rows hold. *)
Theorem load_users_from_sheet_numeric_cell (records : list sheet_record) :
  Exists has_numeric_cell records →
  ∃ kind,
    (kind = py "int" ∨ kind = py "float")
    ∧ load_users_from_sheet (Return records)
      = (Return [],
         [st_error (py "Error loading user data: '" ++ kind
                      ++ py "' object has no attribute 'strip'")]).
Proof.
  intros Hnum. unfold load_users_from_sheet. simpl.
  destruct (records_loop_numeric [] records Hnum) as (e & -> & [-> | ->]).
  - exists (py "int"). split; [by left | reflexivity].
  - exists (py "float"). split; [by right | reflexivity].
Qed.

Lemma load_users_from_sheet_numeric_cell_witness :
  Exists has_numeric_cell
    (alice_sheet ++ [[(py "Name", CStr (py "Bob")); (py "Password", CInt 123456)]])
  ∧ ∃ kind,
      (kind = py "int" ∨ kind = py "float")
      ∧ load_users_from_sheet
          (Return (alice_sheet
                   ++ [[(py "Name", CStr (py "Bob"));
                        (py "Password", CInt 123456)]]))
        = (Return [],
           [st_error (py "Error loading user data: '" ++ kind
                        ++ py "' object has no attribute 'strip'")]).
Proof.
  assert (Hnum : Exists has_numeric_cell
    (alice_sheet ++ [[(py "Name", CStr (py "Bob")); (py "Password", CInt 123456)]])).
  { apply Exists_cons_tl, Exists_cons_hd. right; right; left. exact I. }
  split; [exact Hnum|].
  exact (load_users_from_sheet_numeric_cell _ Hnum).
Defined.

(** X9.  A selection that is missing, empty or no name of the directory
    falls back to the first name of the directory: with the dropdown
    untouched and no form submitted, [show_login] writes that name into
    the session, changes nothing else and returns false. *)
Theorem show_login_falls_back_to_first_key
    (fetched : result (list sheet_record)) (users : users_dict)
    (shown : list ui_msg) (first_key : pystr) (rest : list pystr)
    (w : login_widgets) (ss : session_state) :
  load_users_from_sheet fetched = (Return users, shown) →
  PyDict.keys users = first_key :: rest →
  (∀ n, ss !! "selected_user" = Some (VStr n) → n ∉ PyDict.keys users) →
  (∀ items, ss !! "selected_user" ≠ Some (VList items)) →
  user_dropdown w = None → login_button w = false →
  show_login fetched w ss
  = (Returned false, <["selected_user" := VStr first_key]> ss, shown).
Proof.
  intros Hload Hkeys Hstale Hlist Hdrop Hbutton.
  assert (Hfirst : PyDict.mem first_key users = true).
  { apply mem_keys. rewrite Hkeys. left. }
  assert (Hpanels : ∀ ss0 : session_state,
    show_login_panels users w first_key
      (<["selected_user" := VStr first_key]> ss0) shown
    = (Returned false, <["selected_user" := VStr first_key]> ss0, shown)).
  { intros ss0. unfold show_login_panels.
    rewrite Hdrop, Hbutton, lookup_insert_eq. by rewrite bool_decide_false by naive_solver. }
  unfold show_login. rewrite Hload, Hkeys. cbv zeta.
  destruct (ss !! "selected_user") as [[|b|n|items]|] eqn:Hsel; cbv iota.
  - rewrite lookup_insert_eq. cbn [default from_option id in_users].
    rewrite Hfirst. apply Hpanels.
  - rewrite Hsel. cbn [default from_option id in_users]. apply Hpanels.
  - rewrite Hsel. cbn [default from_option id in_users].
    destruct (PyDict.mem n users) eqn:Hmem; [|apply Hpanels].
    apply mem_keys in Hmem. by destruct (Hstale n).
  - by destruct (Hlist items).
  - rewrite lookup_insert_eq. cbn [default from_option id in_users].
    rewrite Hfirst. apply Hpanels.
Qed.

Lemma show_login_falls_back_to_first_key_witness :
  load_users_from_sheet (Return alice_sheet) = (Return alice_directory, [])
  ∧ show_login (Return alice_sheet) (LoginWidgets None [] false)
      (<["selected_user" := VStr (py "Mallory")]> ∅)
    = (Returned false,
       <["selected_user" := VStr (py "Alice")]>
         (<["selected_user" := VStr (py "Mallory")]> ∅), []).
Proof.
  split; [vm_compute; reflexivity|].
  apply (show_login_falls_back_to_first_key (Return alice_sheet)
           alice_directory [] (py "Alice") []).
  - vm_compute. reflexivity.
  - reflexivity.
  - intros n Hn. rewrite lookup_insert_eq in Hn. injection Hn as <-.
    vm_compute. intros Hin. apply list_elem_of_singleton in Hin. discriminate.
  - intros items. rewrite lookup_insert_eq. discriminate.
  - reflexivity.
  - reflexivity.
Defined.

(** ** More on the deck assembler *)

Section assembler_extras.
Variable blank_layout : list nat.
Variable native_size : list Byte.byte → option (Z * Z).
Variable image_error : nat → list Byte.byte → pystr.
Variable tmp_error : nat → pystr → option pystr.

(** X10.  For every list of files and either setting the assembler
    returns, and what it returns is fixed by the files one by one: a
    presentation 12188952 by 6858000 units large whose slides stand, in the
    order of the files, for the files whose temporary file was created: one
    picture of the file at the origin where the image library identifies
    the file and an empty slide where it does not.  A file whose temporary
    file was not created has no slide, so there are at most as many slides
    as files, and as many when every temporary file is created. *)
Theorem generate_ppt_slides_in_order (image_files : list UploadedFile)
    (auto_resize : bool) (files : gmap nat (pystr * list Byte.byte))
    (lg : list (log_level * pystr)) :
  ∃ deck files' lg',
    generate_ppt_from_images blank_layout native_size image_error tmp_error
      image_files auto_resize files lg = (Return deck, files', lg')
    ∧ slide_width deck = 12188952 ∧ slide_height deck = 6858000
    ∧ slides deck
      = (slide_for native_size auto_resize 12188952 6858000
           <$> with_tmp_file tmp_error 0 image_files)
    ∧ (length (slides deck) ≤ length image_files)%nat
    ∧ (all_tmp_files tmp_error image_files →
       slides deck
       = (slide_for native_size auto_resize 12188952 6858000 <$> image_files)
       ∧ length (slides deck) = length image_files).
Proof.
  destruct (generate_ppt_from_images_run blank_layout native_size image_error
              tmp_error image_files auto_resize files lg) as (files' & -> & _).
  eexists _, files', _. split_and!; try done.
  - simpl. rewrite length_fmap. apply with_tmp_file_length.
  - intros Hall. simpl. rewrite with_tmp_file_all by done.
    by rewrite length_fmap.
Qed.

(** X11.  Among the files whose temporary file was created, the slide at
    the position of a file that the image library identifies holds one
    shape: the picture of that file at the origin, as large as the canvas
    with resizing and of the native size of the image without. *)
Theorem generate_ppt_slide_of_identified_file
    (image_files : list UploadedFile) (auto_resize : bool)
    (files : gmap nat (pystr * list Byte.byte)) (lg : list (log_level * pystr))
    (i : nat) (file : UploadedFile) (native : Z * Z) :
  with_tmp_file tmp_error 0 image_files !! i = Some file →
  native_size (getvalue file) = Some native →
  ∃ deck files' lg',
    generate_ppt_from_images blank_layout native_size image_error tmp_error
      image_files auto_resize files lg = (Return deck, files', lg')
    ∧ slides deck !! i
      = Some [Pic (Picture (getvalue file) 0 0
                     (if auto_resize then slide_width deck else native.1)
                     (if auto_resize then slide_height deck else native.2))].
Proof.
  intros Hfile Hnative.
  destruct (generate_ppt_from_images_run blank_layout native_size image_error
              tmp_error image_files auto_resize files lg) as (files' & -> & _).
  eexists _, files', _. split; [done|]. simpl.
  rewrite list_lookup_fmap, Hfile. simpl. unfold slide_for. by rewrite Hnative.
Qed.



(** X14.  What the page says about the deck.  For a list of files that is
    not empty the generation section never shows its error banner: it
    offers the presentation for download under
    [presentation_<timestamp>.pptx] and announces as many slides as files
    were uploaded.  The presentation has one slide for every file whose
    temporary file was created: never more slides than announced, and as
    many when every temporary file is created. *)
Theorem generate_section_count (uploaded_files : list UploadedFile)
    (auto_resize : bool) (timestamp : pystr)
    (files : gmap nat (pystr * list Byte.byte)) (lg : list (log_level * pystr)) :
  uploaded_files ≠ [] →
  ∃ deck files' lg',
    generate_section blank_layout native_size image_error tmp_error
      uploaded_files auto_resize timestamp files lg
    = (Return
         [page_success_banner;
          page_download deck (py "presentation_" ++ timestamp ++ py ".pptx")
            (py "application/vnd.openxmlformats-officedocument.presentationml.presentation");
          page_info (py "Created presentation with "
                       ++ str_of_nat (length uploaded_files) ++ py " slides")],
       files', lg')
    ∧ generate_ppt_from_images blank_layout native_size image_error tmp_error
        uploaded_files auto_resize files lg = (Return deck, files', lg')
    ∧ length (slides deck) = length (with_tmp_file tmp_error 0 uploaded_files)
    ∧ (length (slides deck) ≤ length uploaded_files)%nat
    ∧ (all_tmp_files tmp_error uploaded_files →
       length (slides deck) = length uploaded_files).
Proof.
  intros Hne. unfold generate_section.
  destruct uploaded_files as [|file rest]; [done|].
  destruct (generate_ppt_from_images_run blank_layout native_size image_error
              tmp_error (file :: rest) auto_resize files lg)
    as (files' & -> & _).
  eexists _, files', _. split_and!; try done.
  - cbn [slides]. by rewrite length_fmap.
  - cbn [slides]. rewrite length_fmap. apply with_tmp_file_length.
  - intros Hall. cbn [slides]. by rewrite length_fmap, with_tmp_file_all.
Qed.
End assembler_extras.

Lemma generate_ppt_slide_of_identified_file_witness :
  with_tmp_file example_tmp_error 0 [slashed_png; corrupt_jpg; valid_png]
    !! 1%nat = Some valid_png
  ∧ example_native_size (getvalue valid_png) = Some (38100, 28575)
  ∧ ∃ deck files' lg',
      generate_ppt_from_images [7%nat] example_native_size example_image_error
        example_tmp_error [slashed_png; corrupt_jpg; valid_png] false ∅ []
      = (Return deck, files', lg')
      ∧ slides deck !! 1%nat
        = Some [Pic (Picture (getvalue valid_png) 0 0 38100 28575)].
Proof.
  assert (Hfile : with_tmp_file example_tmp_error 0
                    [slashed_png; corrupt_jpg; valid_png] !! 1%nat
                  = Some valid_png) by (vm_compute; reflexivity).
  split; [exact Hfile|]. split; [reflexivity|].
  exact (generate_ppt_slide_of_identified_file [7%nat] example_native_size
           example_image_error example_tmp_error
           [slashed_png; corrupt_jpg; valid_png] false ∅ [] 1 valid_png
           (38100, 28575) Hfile eq_refl).
Defined.

Lemma generate_section_count_witness :
  [slashed_png; valid2_png] ≠ []
  ∧ ∃ deck files' lg',
      generate_section [] example_native_size example_image_error
        example_tmp_error [slashed_png; valid2_png] true
        (py "20240131_093000") ∅ []
      = (Return
           [page_success_banner;
            page_download deck
              (py "presentation_" ++ py "20240131_093000" ++ py ".pptx")
              (py "application/vnd.openxmlformats-officedocument.presentationml.presentation");
            page_info (py "Created presentation with "
                         ++ str_of_nat (length [slashed_png; valid2_png])
                         ++ py " slides")],
         files', lg')
      ∧ generate_ppt_from_images [] example_native_size example_image_error
          example_tmp_error [slashed_png; valid2_png] true ∅ []
        = (Return deck, files', lg')
      ∧ length (slides deck)
        = length (with_tmp_file example_tmp_error 0 [slashed_png; valid2_png])
      ∧ (length (slides deck) ≤ length [slashed_png; valid2_png])%nat
      ∧ (all_tmp_files example_tmp_error [slashed_png; valid2_png] →
         length (slides deck) = length [slashed_png; valid2_png]).
Proof.
  assert (Hne : [slashed_png; valid2_png] ≠ []) by discriminate.
  split; [exact Hne|].
  exact (generate_section_count [] example_native_size example_image_error
           example_tmp_error [slashed_png; valid2_png] true
           (py "20240131_093000") ∅ [] Hne).
Defined.

(** The announcement for two files, one of them corrupt. *)
Example generate_section_two_files :
  (generate_section [] example_native_size example_image_error
     example_tmp_error [valid_png; corrupt_jpg] true
     (py "20240131_093000") ∅ []).1.1
  = Return
      [page_success_banner;
       page_download
         (MkPresentation 12188952 6858000
            [[Pic (Picture (getvalue valid_png) 0 0 12188952 6858000)]; []])
         (py "presentation_20240131_093000.pptx")
         (py "application/vnd.openxmlformats-officedocument.presentationml.presentation");
       page_info (py "Created presentation with 2 slides")].
Proof. vm_compute. reflexivity. Qed.

(** A name with a slash after its last dot: the temporary file is not
    created, the file gets no slide and leaves nothing on disk, the log
    holds the text of the exception, and the page announces two slides for
    a presentation of one. *)
Example generate_section_slashed_name :
  generate_section [] example_native_size example_image_error
    example_tmp_error [slashed_png; valid2_png] true
    (py "20240131_093000") ∅ []
  = (Return
       [page_success_banner;
        page_download
          (MkPresentation 12188952 6858000
             [[Pic (Picture (getvalue valid2_png) 0 0 12188952 6858000)]])
          (py "presentation_20240131_093000.pptx")
          (py "application/vnd.openxmlformats-officedocument.presentationml.presentation");
        page_info (py "Created presentation with 2 slides")],
     ∅,
     [(ERROR, py "Error processing image photo.a/b: [Errno 2] No such file or directory: '/tmp/tmpq3x7_k2d.a/b'")]).
Proof. vm_compute. reflexivity. Qed.

(** A corrupt file under such a name leaves no slide and no temporary
    file. *)
Example generate_ppt_slashed_corrupt :
  generate_ppt_from_images [] example_native_size example_image_error
    example_tmp_error [MkUploadedFile (py "x.a/b") [Byte.xff; Byte.x00]]
    true ∅ []
  = (Return (MkPresentation 12188952 6858000 []), ∅,
     [(ERROR, py "Error processing image x.a/b: [Errno 2] No such file or directory: '/tmp/tmpq3x7_k2d.a/b'")]).
Proof. vm_compute. reflexivity. Qed.

(** The line of a picture that fails ends in the text of its exception. *)
Example generate_ppt_corrupt_log :
  (generate_ppt_from_images [] example_native_size example_image_error
     example_tmp_error [corrupt_jpg] true ∅ []).2
  = [(ERROR, py "Error processing image corrupt.jpg: cannot identify image file <_io.BytesIO object at 0x7f2c1d4b3e50>")].
Proof. vm_compute. reflexivity. Qed.

(** ** Profile images *)

Example convert_sharing_link :
  convert_google_drive_url sharing_link
  = py "https://drive.google.com/uc?export=view&id=1AbC_dEf".
Proof. vm_compute. reflexivity. Qed.

Example convert_open_link :
  convert_google_drive_url open_link
  = py "https://drive.google.com/uc?export=view&id=1AbC_dEf".
Proof. vm_compute. reflexivity. Qed.

Example convert_other_site :
  convert_google_drive_url (py "https://rn.example/a.png?id=7")
  = py "https://rn.example/a.png?id=7".
Proof. vm_compute. reflexivity. Qed.

Example split_overlap : split (py "aa") (py "aaaa.aaa") = [[]; []; py "."; py "a"].
Proof. vm_compute. reflexivity. Qed.

Lemma starts_with_spec p s : starts_with p s = true ↔ ∃ t, s = p ++ t.
Proof.
  revert s. induction p as [|a p IH]; intros s; simpl.
  - split; [by exists s | done].
  - destruct s as [|b s]; [split; [done | by intros [t [=]]]|].
    rewrite andb_true_iff, N.eqb_eq, IH. split.
    + intros [-> [t ->]]. by exists t.
    + intros [t [= -> ->]]. by eauto.
Qed.

Lemma starts_with_app p s t :
  starts_with p s = true → starts_with p (s ++ t) = true.
Proof.
  rewrite !starts_with_spec. intros [r ->]. exists (r ++ t).
  by rewrite (assoc_L (++)).
Qed.

Lemma starts_with_short p s :
  (length s < length p)%nat → starts_with p s = false.
Proof.
  intros Hlen. destruct (starts_with p s) eqn:Hsw; [|done].
  apply starts_with_spec in Hsw as [t ->]. rewrite length_app in Hlen. lia.
Qed.

Lemma contains_short sep s :
  (length s < length sep)%nat → contains sep s = false.
Proof.
  induction s as [|c s IH]; simpl; intros Hlen.
  - rewrite starts_with_short by done. done.
  - rewrite (starts_with_short sep (c :: s)) by done. simpl. apply IH. lia.
Qed.

Lemma contains_cons sep c s :
  contains sep (c :: s) = starts_with sep (c :: s) || contains sep s.
Proof. done. Qed.

(** A string without an occurrence has none in any of its segments. *)
Lemma contains_suffix sep x s : contains sep (x ++ s) = false → contains sep s = false.
Proof.
  induction x as [|c x IH]; [done|]. rewrite <- app_comm_cons, contains_cons.
  intros [_ ?]%orb_false_iff. by apply IH.
Qed.

Lemma contains_prefix sep s y : contains sep (s ++ y) = false → contains sep s = false.
Proof.
  induction s as [|c s IH].
  - simpl. intros Hy. destruct (starts_with sep []) eqn:Hsw; [|done].
    apply (starts_with_app _ _ y) in Hsw. destruct y; simpl in *.
    + by rewrite Hsw in Hy.
    + by rewrite Hsw in Hy.
  - rewrite <- app_comm_cons, !contains_cons.
    intros [Hsw Hrest]%orb_false_iff. rewrite (IH Hrest), orb_false_r.
    destruct (starts_with sep (c :: s)) eqn:Hsw'; [|done].
    apply (starts_with_app _ _ y) in Hsw'. simpl in *. congruence.
Qed.

Lemma contains_segment sep x s y :
  contains sep (x ++ s ++ y) = false → contains sep s = false.
Proof. intros H%contains_suffix. by apply contains_prefix in H. Qed.

Lemma contains_true_nonempty sep s :
  sep ≠ [] → contains sep s = true → s ≠ [].
Proof. intros Hsep Hc ->. destruct sep; [done|]. by simpl in Hc. Qed.

(** [partition] cuts at an occurrence, *)
Lemma partition_spec sep s before after :
  partition sep s = Some (before, after) → s = before ++ sep ++ after.
Proof.
  revert before. induction s as [|c s IH]; intros before; simpl.
  - destruct (starts_with sep []) eqn:Hsw; [|done].
    intros [= <- <-]. apply starts_with_spec in Hsw as [t Ht].
    symmetry in Ht. apply app_eq_nil in Ht as [-> ->]. done.
  - destruct (starts_with sep (c :: s)) eqn:Hsw.
    + intros [= <- <-]. apply starts_with_spec in Hsw as [t ->].
      by rewrite drop_app_length.
    + destruct (partition sep s) as [[b a]|]; [|done].
      intros [= <- <-]. simpl. f_equal. by apply IH.
Qed.

(** finds one whenever there is one, *)
Lemma partition_None sep s : partition sep s = None ↔ contains sep s = false.
Proof.
  induction s as [|c s IH]; simpl.
  - destruct (starts_with sep []); by split.
  - destruct (starts_with sep (c :: s)); simpl; [by split|].
    rewrite <- IH. destruct (partition sep s) as [[b a]|]; by split.
Qed.

Lemma partition_Some sep s :
  contains sep s = true → ∃ before after, partition sep s = Some (before, after).
Proof.
  intros Hc. destruct (partition sep s) as [[b a]|] eqn:Hp; [by eauto|].
  apply partition_None in Hp. congruence.
Qed.

Lemma contains_short_take sep :
  sep ≠ [] → contains sep ([] ++ take (pred (length sep)) sep) = false.
Proof.
  intros Hsep. apply contains_short. cbn [app]. rewrite length_take.
  destruct sep; simpl; [done | lia].
Qed.

(** and at the first one: the separator does not occur before the place
    of the cut, not even overlapping it. *)
Lemma partition_first sep s before after :
  sep ≠ [] →
  partition sep s = Some (before, after) →
  contains sep (before ++ take (pred (length sep)) sep) = false.
Proof.
  intros Hsep. revert before. induction s as [|c s IH]; intros before; simpl.
  - destruct (starts_with sep []) eqn:Hsw; [|done]. intros [= <- <-].
    by apply contains_short_take.
  - destruct (starts_with sep (c :: s)) eqn:Hsw.
    + intros [= <- <-]. by apply contains_short_take.
    + destruct (partition sep s) as [[b a]|] eqn:Hp; [|done].
      intros [= <- <-]. rewrite <- app_comm_cons, contains_cons.
      rewrite (IH _ eq_refl), orb_false_r.
      destruct (starts_with sep (c :: b ++ take (pred (length sep)) sep)) eqn:Hsw';
        [|done].
      apply (starts_with_app _ _ (drop (pred (length sep)) sep ++ a)) in Hsw'.
      apply partition_spec in Hp.
      rewrite <- app_comm_cons, <- !(assoc_L (++)), (assoc_L (++) (take _ _)),
        take_drop, <- Hp in Hsw'.
      congruence.
Qed.

Lemma partition_before sep s before after :
  sep ≠ [] →
  partition sep s = Some (before, after) → contains sep before = false.
Proof.
  intros Hsep Hp. eapply contains_prefix, partition_first; done.
Qed.

(** What the script reads off a split: the piece before the first
    occurrence, and the piece between the first and the second. *)
Definition first_piece (sep s : pystr) : pystr :=
  match partition sep s with Some (before, _) => before | None => s end.

Lemma partition_nil sep : sep ≠ [] → partition sep [] = None.
Proof. by destruct sep. Qed.

Lemma split_index_0 sep s :
  sep ≠ [] → index (split sep s) 0 = Return (first_piece sep s).
Proof.
  intros Hsep. unfold split, first_piece.
  destruct s as [|c s]; [by rewrite partition_nil|].
  cbn [length split_upto]. by destruct (partition sep (c :: s)) as [[b a]|].
Qed.

Lemma split_index_1 sep s before after :
  sep ≠ [] →
  partition sep s = Some (before, after) →
  index (split sep s) 1 = Return (first_piece sep after).
Proof.
  intros Hsep Hp. unfold split, first_piece.
  pose proof (partition_spec _ _ _ _ Hp) as Hs.
  assert (Hlen : (length after < length s)%nat).
  { rewrite Hs, !length_app. destruct sep; simpl; [done | lia]. }
  destruct (length s) as [|cuts] eqn:Hcuts; [lia|].
  cbn [split_upto]. rewrite Hp.
  destruct cuts as [|cuts].
  - destruct after; [|simpl in Hlen; lia]. by rewrite partition_nil.
  - cbn [split_upto]. by destruct (partition sep after) as [[b a]|].
Qed.

Lemma first_piece_spec sep s :
  sep ≠ [] →
  contains sep (first_piece sep s) = false
  ∧ ∃ rest, s = first_piece sep s ++ rest
            ∧ (rest = [] ∨ ∃ rest', rest = sep ++ rest').
Proof.
  intros Hsep. unfold first_piece.
  destruct (partition sep s) as [[b a]|] eqn:Hp.
  - split; [by eapply partition_before|].
    exists (sep ++ a). split; [by apply partition_spec | by eauto].
  - split; [by apply partition_None|]. exists []. by rewrite app_nil_r; eauto.
Qed.

(** The separators of the script are literals that are not empty. *)
Ltac literal_nonempty :=
  let H := fresh in intros H; vm_compute in H; discriminate H.

Lemma truthy_contains sep s : sep ≠ [] → contains sep s = true → truthy s = true.
Proof.
  intros Hsep Hc. apply truthy_nonempty. by eapply contains_true_nonempty.
Qed.

Lemma partition_contains sep s before after :
  partition sep s = Some (before, after) → contains sep s = true.
Proof.
  intros Hp. destruct (contains sep s) eqn:Hc; [done|].
  apply partition_None in Hc. congruence.
Qed.

(** The function on a link with [/file/d/] and on a link with [id=], in
    terms of the pieces of the splits. *)
Lemma convert_google_drive_url_file_pieces url before after :
  contains (py "drive.google.com") url = true →
  partition (py "/file/d/") url = Some (before, after) →
  convert_google_drive_url url
  = drive_direct_prefix ++ first_piece (py "/") (first_piece (py "/file/d/") after).
Proof.
  intros Hdrive Hp. unfold convert_google_drive_url.
  rewrite (truthy_contains (py "drive.google.com") _ ltac:(literal_nonempty) Hdrive),
    Hdrive.
  rewrite (partition_contains _ _ _ _ Hp). cbn [negb orb].
  rewrite (split_index_1 (py "/file/d/") _ _ _ ltac:(literal_nonempty) Hp). cbn [mbind result_bind].
  by rewrite split_index_0 by literal_nonempty.
Qed.

Lemma convert_google_drive_url_id_pieces url before after :
  contains (py "drive.google.com") url = true →
  contains (py "/file/d/") url = false →
  partition (py "id=") url = Some (before, after) →
  convert_google_drive_url url
  = drive_direct_prefix ++ first_piece (py "&") (first_piece (py "id=") after).
Proof.
  intros Hdrive Hfile Hp. unfold convert_google_drive_url.
  rewrite (truthy_contains (py "drive.google.com") _ ltac:(literal_nonempty) Hdrive),
    Hdrive, Hfile.
  rewrite (partition_contains _ _ _ _ Hp). cbn [negb orb].
  rewrite (split_index_1 (py "id=") _ _ _ ltac:(literal_nonempty) Hp). cbn [mbind result_bind].
  by rewrite split_index_0 by literal_nonempty.
Qed.

(** X15.  Sharing links.  For a link that mentions [drive.google.com] and
    holds [/file/d/], the function returns the direct link of the file id
    that follows the first [/file/d/]: the id runs up to the next slash or
    to the end of the link and holds no slash itself. *)
Theorem convert_google_drive_url_file (url : pystr) :
  contains (py "drive.google.com") url = true →
  contains (py "/file/d/") url = true →
  ∃ before file_id rest,
    url = before ++ py "/file/d/" ++ file_id ++ rest
    ∧ contains (py "/file/d/") (before ++ py "/file/d") = false
    ∧ contains (py "/") file_id = false
    ∧ (rest = [] ∨ ∃ rest', rest = py "/" ++ rest')
    ∧ convert_google_drive_url url
      = py "https://drive.google.com/uc?export=view&id=" ++ file_id.
Proof.
  intros Hdrive Hfile.
  destruct (partition_Some _ _ Hfile) as (before & after & Hp).
  rewrite (convert_google_drive_url_file_pieces _ _ _ Hdrive Hp).
  destruct (first_piece_spec (py "/file/d/") after ltac:(literal_nonempty))
    as (_ & rest1 & Hafter & Hrest1).
  destruct (first_piece_spec (py "/") (first_piece (py "/file/d/") after)
              ltac:(literal_nonempty)) as (Hslash & rest2 & Hpiece & Hrest2).
  exists before, (first_piece (py "/") (first_piece (py "/file/d/") after)),
    (rest2 ++ rest1).
  split_and!; [| |done| |done].
  - rewrite (partition_spec _ _ _ _ Hp) at 1.
    rewrite Hafter at 1. rewrite Hpiece at 1. by rewrite <- !(assoc_L (++)).
  - exact (partition_first (py "/file/d/") _ _ _ ltac:(literal_nonempty) Hp).
  - destruct Hrest2 as [-> | [rest' ->]].
    + destruct Hrest1 as [-> | [rest' ->]]; [by left|].
      right. by exists (py "file/d/" ++ rest').
    + right. exists (rest' ++ rest1). by rewrite <- (assoc_L (++)).
Qed.

Lemma convert_google_drive_url_file_witness :
  contains (py "drive.google.com") sharing_link = true
  ∧ contains (py "/file/d/") sharing_link = true
  ∧ ∃ before file_id rest,
      sharing_link = before ++ py "/file/d/" ++ file_id ++ rest
      ∧ contains (py "/file/d/") (before ++ py "/file/d") = false
      ∧ contains (py "/") file_id = false
      ∧ (rest = [] ∨ ∃ rest', rest = py "/" ++ rest')
      ∧ convert_google_drive_url sharing_link
        = py "https://drive.google.com/uc?export=view&id=" ++ file_id.
Proof.
  assert (Hdrive : contains (py "drive.google.com") sharing_link = true)
    by (vm_compute; reflexivity).
  assert (Hfile : contains (py "/file/d/") sharing_link = true)
    by (vm_compute; reflexivity).
  split; [exact Hdrive|]. split; [exact Hfile|].
  exact (convert_google_drive_url_file sharing_link Hdrive Hfile).
Defined.

(** X16.  Links with the file in the query.  For a link that mentions
    [drive.google.com], holds no [/file/d/] and holds [id=], the function
    returns the direct link of the file id that follows the first [id=]:
    the id runs up to the next [&], the next [id=] or the end of the link,
    and holds neither. *)
Theorem convert_google_drive_url_id (url : pystr) :
  contains (py "drive.google.com") url = true →
  contains (py "/file/d/") url = false →
  contains (py "id=") url = true →
  ∃ before file_id rest,
    url = before ++ py "id=" ++ file_id ++ rest
    ∧ contains (py "id=") (before ++ py "id") = false
    ∧ contains (py "&") file_id = false
    ∧ contains (py "id=") file_id = false
    ∧ (rest = [] ∨ (∃ rest', rest = py "&" ++ rest')
       ∨ ∃ rest', rest = py "id=" ++ rest')
    ∧ convert_google_drive_url url
      = py "https://drive.google.com/uc?export=view&id=" ++ file_id.
Proof.
  intros Hdrive Hfile Hid.
  destruct (partition_Some _ _ Hid) as (before & after & Hp).
  rewrite (convert_google_drive_url_id_pieces _ _ _ Hdrive Hfile Hp).
  destruct (first_piece_spec (py "id=") after ltac:(literal_nonempty))
    as (Hnoid & rest1 & Hafter & Hrest1).
  destruct (first_piece_spec (py "&") (first_piece (py "id=") after)
              ltac:(literal_nonempty)) as (Hamp & rest2 & Hpiece & Hrest2).
  exists before, (first_piece (py "&") (first_piece (py "id=") after)),
    (rest2 ++ rest1).
  split_and!; [| |done| | |done].
  - rewrite (partition_spec _ _ _ _ Hp) at 1.
    rewrite Hafter at 1. rewrite Hpiece at 1. by rewrite <- !(assoc_L (++)).
  - exact (partition_first (py "id=") _ _ _ ltac:(literal_nonempty) Hp).
  - rewrite Hpiece in Hnoid. by apply contains_prefix in Hnoid.
  - destruct Hrest2 as [-> | [rest' ->]].
    + destruct Hrest1 as [-> | [rest' ->]]; [by left|].
      right; right. by exists rest'.
    + right; left. exists (rest' ++ rest1). by rewrite <- (assoc_L (++)).
Qed.

Lemma convert_google_drive_url_id_witness :
  contains (py "drive.google.com") open_link = true
  ∧ contains (py "/file/d/") open_link = false
  ∧ contains (py "id=") open_link = true
  ∧ ∃ before file_id rest,
      open_link = before ++ py "id=" ++ file_id ++ rest
      ∧ contains (py "id=") (before ++ py "id") = false
      ∧ contains (py "&") file_id = false
      ∧ contains (py "id=") file_id = false
      ∧ (rest = [] ∨ (∃ rest', rest = py "&" ++ rest')
         ∨ ∃ rest', rest = py "id=" ++ rest')
      ∧ convert_google_drive_url open_link
        = py "https://drive.google.com/uc?export=view&id=" ++ file_id.
Proof.
  assert (Hdrive : contains (py "drive.google.com") open_link = true)
    by (vm_compute; reflexivity).
  assert (Hfile : contains (py "/file/d/") open_link = false)
    by (vm_compute; reflexivity).
  assert (Hid : contains (py "id=") open_link = true)
    by (vm_compute; reflexivity).
  split; [exact Hdrive|]. split; [exact Hfile|]. split; [exact Hid|].
  exact (convert_google_drive_url_id open_link Hdrive Hfile Hid).
Defined.

Lemma first_piece_id sep s : contains sep s = false → first_piece sep s = s.
Proof. intros Hc%partition_None. unfold first_piece. by rewrite Hc. Qed.

Lemma contains_app_l sep s y : contains sep s = true → contains sep (s ++ y) = true.
Proof.
  intros Hc. destruct (contains sep (s ++ y)) eqn:Hc'; [done|].
  apply contains_prefix in Hc'. congruence.
Qed.

(** A direct link is a link with the file in the query: the function
    gives it back. *)
Lemma convert_google_drive_url_direct file_id :
  contains (py "/file/d/") file_id = false →
  contains (py "id=") file_id = false →
  contains (py "&") file_id = false →
  convert_google_drive_url (drive_direct_prefix ++ file_id)
  = drive_direct_prefix ++ file_id.
Proof.
  intros Hfile Hid Hamp.
  rewrite (convert_google_drive_url_id_pieces _
             (py "https://drive.google.com/uc?export=view&") file_id).
  - by rewrite (first_piece_id _ _ Hid), (first_piece_id _ _ Hamp).
  - apply contains_app_l. vm_compute. reflexivity.
  - transitivity (contains (py "/file/d/") file_id); [|exact Hfile].
    vm_compute. reflexivity.
  - vm_compute. reflexivity.
Qed.

(** Anything else comes back as it is: the empty link, a link that does not
    mention [drive.google.com], a link with neither [/file/d/] nor [id=]. *)
Lemma convert_google_drive_url_other url :
  truthy url = false ∨ contains (py "drive.google.com") url = false
  ∨ (contains (py "/file/d/") url = false ∧ contains (py "id=") url = false) →
  convert_google_drive_url url = url.
Proof.
  unfold convert_google_drive_url. intros [-> | [-> | [-> ->]]]; [done| |].
  - by rewrite orb_true_r.
  - by destruct (_ || _).
Qed.

(** X17.  On links without [/file/d/] the function is idempotent: what it
    returns, it returns again when it is given that.  A direct link, once
    made, stays as it is. *)
Theorem convert_google_drive_url_idempotent (url : pystr) :
  contains (py "/file/d/") url = false →
  convert_google_drive_url (convert_google_drive_url url)
  = convert_google_drive_url url.
Proof.
  intros Hfile.
  destruct (contains (py "drive.google.com") url) eqn:Hdrive.
  2:{ rewrite !(convert_google_drive_url_other url) by auto. done. }
  destruct (contains (py "id=") url) eqn:Hid.
  2:{ rewrite !(convert_google_drive_url_other url) by auto. done. }
  destruct (partition_Some _ _ Hid) as (before & after & Hp).
  rewrite (convert_google_drive_url_id_pieces _ _ _ Hdrive Hfile Hp).
  destruct (first_piece_spec (py "id=") after ltac:(literal_nonempty))
    as (Hnoid & rest1 & Hafter & _).
  destruct (first_piece_spec (py "&") (first_piece (py "id=") after)
              ltac:(literal_nonempty)) as (Hamp & rest2 & Hpiece & _).
  apply convert_google_drive_url_direct; [| |done].
  - apply partition_spec in Hp. rewrite Hp, Hafter, Hpiece in Hfile.
    rewrite <- !(assoc_L (++)), (assoc_L (++) before) in Hfile.
    by apply contains_segment in Hfile.
  - rewrite Hpiece in Hnoid. by apply contains_prefix in Hnoid.
Qed.

Lemma convert_google_drive_url_idempotent_witness :
  contains (py "/file/d/") open_link = false
  ∧ convert_google_drive_url (convert_google_drive_url open_link)
    = convert_google_drive_url open_link.
Proof.
  assert (Hfile : contains (py "/file/d/") open_link = false)
    by (vm_compute; reflexivity).
  split; [exact Hfile|].
  exact (convert_google_drive_url_idempotent open_link Hfile).
Defined.

(** With [/file/d/] a second pass can cut the id again, at an [&]. *)
Example convert_twice_differs :
  convert_google_drive_url (py "https://drive.google.com/file/d/a&b/view")
  = py "https://drive.google.com/uc?export=view&id=a&b"
  ∧ convert_google_drive_url (py "https://drive.google.com/uc?export=view&id=a&b")
    = py "https://drive.google.com/uc?export=view&id=a".
Proof. split; vm_compute; reflexivity. Qed.

(** ** Avatars *)

(** X18.  [get_user_gradient] never fails: whatever the hash of the name
    is, negative or not, the remainder is a position of the list, and the
    function returns one of the eight gradients. *)
Theorem get_user_gradient_in_range (hash : pystr → Z) (lower : pystr → pystr)
    (user_name : pystr) :
  ∃ gradient,
    get_user_gradient hash lower user_name = Return gradient
    ∧ gradient ∈ gradients.
Proof.
  unfold get_user_gradient, index_int. cbv zeta.
  pose proof (Z.mod_pos_bound (hash (lower user_name))
                (Z.of_nat (length gradients)) ltac:(done)) as Hbound.
  set (h := hash (lower user_name) `mod` Z.of_nat (length gradients)) in *.
  set (n := Z.of_nat (length gradients)) in *.
  rewrite (bool_decide_false (h < 0)) by lia.
  rewrite bool_decide_true by done.
  unfold index. destruct (gradients !! Z.to_nat h) as [g|] eqn:Hg.
  - exists g. split; [done|]. by eapply list_elem_of_lookup_2.
  - apply lookup_ge_None in Hg. subst n. lia.
Qed.

Lemma split_whitespace_from_words word s :
  Forall (λ c, isspace c = false) word →
  Forall (λ w, w ≠ [] ∧ Forall (λ c, isspace c = false) w)
    (split_whitespace_from word s).
Proof.
  revert word. induction s as [|c s IH]; intros word Hword; simpl.
  - destruct word as [|c0 word]; [done|]. constructor; [|done]. split.
    + intros Hrev. apply (f_equal length) in Hrev.
      rewrite length_rev in Hrev. done.
    + by apply Forall_rev.
  - destruct (isspace c) eqn:Hc.
    + destruct word as [|c0 word]; [by apply IH|].
      constructor; [|by apply IH]. split.
      * intros Hrev. apply (f_equal length) in Hrev.
        rewrite length_rev in Hrev. done.
      * by apply Forall_rev.
    + apply IH. by constructor.
Qed.

Lemma first_letters_nonempty upper names :
  Forall (λ w, w ≠ []) names →
  first_letters upper names
  = Return ((λ w, upper (default 0%N (head w))) <$> names).
Proof.
  induction 1 as [|w names Hw _ IH]; simpl; [done|].
  destruct w as [|c w]; [done|]. simpl. by rewrite IH.
Qed.

(** X19.  The initials never fail.  [split()] gives words that are not
    empty and hold no white space, so the first character of each is
    there: the initials are the upper-cased first characters of the first
    two words, and empty for a name that is empty or all white space. *)
Theorem initials_defined (upper : N → pystr) (user_name : pystr) :
  Forall (λ w, w ≠ [] ∧ Forall (λ c, isspace c = false) w)
    (split_whitespace user_name)
  ∧ initials upper user_name
    = Return (concat ((λ w, upper (default 0%N (head w)))
                        <$> take 2 (split_whitespace user_name)))
  ∧ (Forall (λ c, isspace c = true) user_name →
     initials upper user_name = Return []).
Proof.
  pose proof (split_whitespace_from_words [] user_name ltac:(done)) as Hwords.
  assert (Hrun : initials upper user_name
    = Return (concat ((λ w, upper (default 0%N (head w)))
                        <$> take 2 (split_whitespace user_name)))).
  { unfold initials. rewrite first_letters_nonempty; [done|].
    apply Forall_take. eapply Forall_impl; [exact Hwords|]. by intros w [? _]. }
  split_and!; [done | done |].
  intros Hspace. rewrite Hrun.
  assert (Hnone : split_whitespace user_name = []); [|by rewrite Hnone].
  clear Hwords Hrun. unfold split_whitespace.
  induction Hspace as [|c s Hc _ IH]; [done|]. simpl. by rewrite Hc.
Qed.

Example initials_of_two_names :
  initials (λ c, [if bool_decide (97 ≤ c ≤ 122)%N then (c - 32)%N else c])
    (py "  ada  lovelace byron ")
  = Return (py "AL").
Proof. vm_compute. reflexivity. Qed.
